(** * crew.py: the tools and the start-up of the multi-agent crew

    A shallow embedding of [src/crew.py].  Python text is a [string] whose
    characters are the code points below 256 (the range of [ascii]); on that
    range [isspace], [lower] and the line boundaries are CPython's.  Every
    call that leaves the interpreter (console, environment, file system,
    child processes, the agent framework) is a request of type [eff]; a
    function of the script is a tree of requests ([prog]) and [interp] runs
    it against an environment that answers the requests, recording them in
    call order. *)

From Stdlib Require Import ZArith NArith Ascii String List Bool Lia.
From stdpp Require Import base option list strings gmap.

Local Open Scope Z_scope.

(** ** Python text primitives *)

Module PyStr.

Definition nl : string := String (ascii_of_N 10) "".

(** [bool(s)] for a [str]: only the empty text is falsy. *)
Definition truthy (s : string) : bool :=
  match s with EmptyString => false | String _ _ => true end.

(** [a or b] on two [str] values. *)
Definition por (a b : string) : string := if truthy a then a else b.

(** [str.isspace] of one character. *)
Definition isspace (c : ascii) : bool :=
  let n := N_of_ascii c in
  ((9 <=? n) && (n <=? 13) || (28 <=? n) && (n <=? 32)
   || (n =? 133) || (n =? 160))%N.

(** The characters at which [str.splitlines] cuts. *)
Definition islinebreak (c : ascii) : bool :=
  let n := N_of_ascii c in
  ((10 <=? n) && (n <=? 13) || (28 <=? n) && (n <=? 30) || (n =? 133))%N.

Definition lower_char (c : ascii) : ascii :=
  let n := N_of_ascii c in
  if ((65 <=? n) && (n <=? 90) || (192 <=? n) && (n <=? 214)
      || (216 <=? n) && (n <=? 222))%N
  then ascii_of_N (n + 32) else c.

(** [str.lower]. *)
Fixpoint lower (s : string) : string :=
  match s with
  | EmptyString => EmptyString
  | String c s' => String (lower_char c) (lower s')
  end.

Fixpoint lstrip (s : string) : string :=
  match s with
  | EmptyString => EmptyString
  | String c s' => if isspace c then lstrip s' else s
  end.

Fixpoint rstrip (s : string) : string :=
  match s with
  | EmptyString => EmptyString
  | String c s' =>
      match rstrip s' with
      | EmptyString => if isspace c then EmptyString else String c EmptyString
      | r => String c r
      end
  end.

(** [str.strip()] without argument. *)
Definition strip (s : string) : string := rstrip (lstrip s).

(** [str.splitlines()]: [cur] is the line being read, [after_cr] tells
    that the previous character was a carriage return, whose following
    line feed belongs to the same boundary. *)
Fixpoint splitlines_from (cur : string) (after_cr : bool) (s : string)
  : list string :=
  match s with
  | EmptyString => if truthy cur then [cur] else []
  | String c s' =>
      if after_cr && (N_of_ascii c =? 10)%N then splitlines_from cur false s'
      else if islinebreak c
           then cur :: splitlines_from EmptyString (N_of_ascii c =? 13)%N s'
           else splitlines_from (cur +:+ String c EmptyString) false s'
  end.

Definition splitlines (s : string) : list string :=
  splitlines_from EmptyString false s.

(** [x in (a, b, ...)] for text. *)
Definition in_tuple (x : string) (t : list string) : bool :=
  existsb (String.eqb x) t.

(** A text made of white space only. *)
Fixpoint blank (s : string) : bool :=
  match s with
  | EmptyString => true
  | String c s' => isspace c && blank s'
  end.

End PyStr.
Import PyStr.

(** ** The objects of the agent framework the script builds *)

Record CompletedProcess := mkCompleted {
  returncode : Z;
  stdout : string;
  stderr : string
}.

Inductive exn :=
| SystemExit (status : Z)
| EOFError
| OSError (what : string)
| IndexError
| UnicodeError (what : string)
| FrameworkError (what : string).

Record StdioServerParams := mkParams {
  command : string;
  args : list string
}.

Record ModelClient := mkModel {
  model_name : string;
  parallel_tool_calls : bool
}.

(** The Python functions handed to [FunctionTool]. *)
Inductive pyfunc := Fn_human_confirm | Fn_winget_install | Fn_vscode_get_version.

(** [AssistantAgent] and the two kinds of tool; [max_tool_iterations] is
    [None] where the script leaves the framework's default. *)
Inductive AssistantAgent :=
| mkAgent (name : string) (model_client : ModelClient)
          (workbench : option StdioServerParams) (tools : list Tool)
          (system_message : string) (max_tool_iterations : option nat)
with Tool :=
| AgentTool (agent : AssistantAgent) (return_value_as_last_message : bool)
| FunctionTool (name description : string) (func : pyfunc).

Definition agent_name (a : AssistantAgent) : string :=
  let 'mkAgent n _ _ _ _ _ := a in n.
Definition agent_model (a : AssistantAgent) : ModelClient :=
  let 'mkAgent _ m _ _ _ _ := a in m.
Definition agent_tools (a : AssistantAgent) : list Tool :=
  let 'mkAgent _ _ _ t _ _ := a in t.
Definition agent_max_tool_iterations (a : AssistantAgent) : option nat :=
  let 'mkAgent _ _ _ _ _ n := a in n.

Definition tool_name (t : Tool) : string :=
  match t with
  | AgentTool a _ => agent_name a
  | FunctionTool n _ _ => n
  end.

(** ** Requests to the outside and programs over them *)

Inductive eff :=
| Print (text : string)
| Input (prompt : string)
| Getenv (name : string)
| Which (cmd : string)
| Expandvars (path : string)
| PathExists (path : string)
| SubprocessRun (argv : list string)
| NewModelClient (m : ModelClient)
| WorkbenchEnter (p : StdioServerParams)
| WorkbenchExit (p : StdioServerParams)
| NewAssistantAgent (a : AssistantAgent)
| AgentRun (a : AssistantAgent) (task : string).

(** What each request gives back; a request that can raise answers with a
    sum. *)
Definition resp (e : eff) : Type :=
  match e with
  | Print _ => (exn + unit)%type
  | Input _ => (exn + string)%type
  | Getenv _ => option string
  | Which _ => option string
  | Expandvars _ => string
  | PathExists _ => bool
  | SubprocessRun _ => (exn + CompletedProcess)%type
  | NewModelClient _ => (exn + unit)%type
  | WorkbenchEnter _ => (exn + unit)%type
  | WorkbenchExit _ => (exn + unit)%type
  | NewAssistantAgent _ => (exn + unit)%type
  | AgentRun _ _ => (exn + string)%type
  end.

Inductive prog (A : Type) : Type :=
| Ret (a : A)
| Raise (e : exn)
| Vis (e : eff) (k : resp e -> prog A).
Arguments Ret {A} a.
Arguments Raise {A} e.
Arguments Vis {A} e k.

Fixpoint bind {A B} (p : prog A) (f : A -> prog B) : prog B :=
  match p with
  | Ret a => f a
  | Raise e => Raise e
  | Vis e k => Vis e (fun x => bind (k x) f)
  end.

#[global] Instance prog_ret : MRet prog := @Ret.
#[global] Instance prog_bind : MBind prog := fun A B f p => bind p f.

(** [try: p finally: c]. *)
Fixpoint finally {A} (p : prog A) (c : prog unit) : prog A :=
  match p with
  | Ret a => bind c (fun _ => Ret a)
  | Raise e => bind c (fun _ => Raise e)
  | Vis e k => Vis e (fun x => finally (k x) c)
  end.

Definition call (e : eff) : prog (resp e) := Vis e Ret.

(** A request whose answer is an exception raises it. *)
Definition call_raising {A} (e : eff) (cast : resp e -> exn + A) : prog A :=
  Vis e (fun r => match cast r with inl x => Raise x | inr a => Ret a end).

Definition print (text : string) : prog unit :=
  call_raising (Print text) id.
Definition input (prompt : string) : prog string :=
  call_raising (Input prompt) id.
Definition subprocess_run (argv : list string) : prog CompletedProcess :=
  call_raising (SubprocessRun argv) id.

(** How a program ends. *)
Inductive outcome (A : Type) :=
| Returned (a : A)
| Raised (e : exn).
Arguments Returned {A} a.
Arguments Raised {A} e.

(** An environment answers every request; it is a snapshot, the same
    request gets the same answer for the length of one call. *)
Definition world := forall e : eff, resp e.

Fixpoint interp {A} (w : world) (p : prog A) : list eff * outcome A :=
  match p with
  | Ret a => ([], Returned a)
  | Raise e => ([], Raised e)
  | Vis e k => let '(t, o) := interp w (k (w e)) in (e :: t, o)
  end.

Definition trace_of {A} (w : world) (p : prog A) : list eff := fst (interp w p).
Definition result_of {A} (w : world) (p : prog A) : outcome A := snd (interp w p).

(** ** crew.py *)

Module Crew.

Definition need_api_key_and_exit : prog unit :=
  print (nl +:+ "[SETUP] OPENAI_API_KEY is not set.");;
  print "Set it via: Start → 'Environment Variables' → 'Environment Variables…' → New (User)";;
  print ("  Name: OPENAI_API_KEY   Value: <your key>" +:+ nl
         +:+ "Then reopen PowerShell and run again." +:+ nl);;
  Raise (SystemExit 1).

(** The f-string of line 16. *)
Definition confirm_prompt (step : string) : string :=
  nl +:+ "CONFIRM: " +:+ step +:+ " [y/N]: ".

Definition human_confirm (step : string) : prog string :=
  line ← input (confirm_prompt step);
  let ans := lower (strip line) in
  mret (if in_tuple ans ["y"; "yes"] then "yes" else "no").

(** Lines 25-27: the command line.  [silent] is the keyword argument of
    line 20; a call that gives only the package identifier passes [true]. *)
Definition winget_args (package_id : string) (silent : bool) : list string :=
  let argv := ["winget"; "install"; "--id"; package_id] in
  if silent
  then argv ++ ["--silent"; "--accept-source-agreements";
                "--accept-package-agreements"]
  else argv.

Definition winget_install (package_id : string) (silent : bool) : prog string :=
  p ← subprocess_run (winget_args package_id silent);
  mret (por (strip (stdout p +:+ stderr p)) "done").

Definition localappdata_code : string :=
  "%LOCALAPPDATA%\Programs\Microsoft VS Code\Code.exe".
Definition program_files_code : string :=
  "C:\Program Files\Microsoft VS Code\Code.exe".
Definition program_files_x86_code : string :=
  "C:\Program Files (x86)\Microsoft VS Code\Code.exe".

(** The [for exe in candidates] loop of lines 43-48, with the final
    [return "unknown"] of line 49 as its exit. *)
Fixpoint probe (candidates : list string) : prog string :=
  match candidates with
  | [] => mret "unknown"
  | exe :: rest =>
      if truthy exe then
        there ← call (PathExists exe);
        if there : bool then
          r ← subprocess_run [exe; "--version"];
          let out := strip (por (stdout r) (stderr r)) in
          if truthy out then
            match splitlines out with
            | first :: _ => mret first
            | [] => Raise IndexError
            end
          else probe rest
        else probe rest
      else probe rest
  end.

(** Lines 36-42: the list the loop walks. *)
Definition candidates_of (code_cmd : option string) (expanded : string)
  : list string :=
  (match code_cmd with
   | Some c => if truthy c then [c] else []
   | None => []
   end) ++ [expanded; program_files_code; program_files_x86_code].

Definition vscode_get_version : prog string :=
  code_cmd ← call (Which "code");
  expanded ← call (Expandvars localappdata_code);
  probe (candidates_of code_cmd expanded).

Definition desktop_params : StdioServerParams :=
  mkParams "npx" ["terminator-mcp-agent@latest"].
Definition web_params : StdioServerParams :=
  mkParams "npx" ["@playwright/mcp@latest"; "--headless"].

Definition model : ModelClient := mkModel "gpt-4o" false.

Definition desktop_ops : AssistantAgent :=
  mkAgent "desktop_ops" model (Some desktop_params) []
    ("You control the Windows desktop via MCP. Use reliable accessibility "
     +:+ "selectors (name:/role:). Before any risky change, require human_confirm.")
    None.

Definition web_ops : AssistantAgent :=
  mkAgent "web_ops" model (Some web_params) []
    "You handle browsing, downloads, and web forms via MCP. Be explicit and deterministic."
    None.

Definition desktop_tool : Tool := AgentTool desktop_ops true.
Definition web_tool : Tool := AgentTool web_ops true.

Definition human_confirm_tool : Tool :=
  FunctionTool "human_confirm"
    "Ask the human to approve a step; returns 'yes' or 'no'." Fn_human_confirm.
Definition winget_install_tool : Tool :=
  FunctionTool "winget_install"
    "Install a Windows package via winget by ID (silent by default)."
    Fn_winget_install.
Definition vscode_get_version_tool : Tool :=
  FunctionTool "vscode_get_version"
    "Return the installed Visual Studio Code version." Fn_vscode_get_version.

Definition supervisor : AssistantAgent :=
  mkAgent "supervisor" model None
    [desktop_tool; web_tool; human_confirm_tool; winget_install_tool;
     vscode_get_version_tool]
    ("You are a careful project manager. Break tasks into steps. "
     +:+ "Prefer winget_install(package_id) for silent installs. "
     +:+ "Use vscode_get_version() to verify installation. "
     +:+ "Use web_ops for browser tasks and desktop_ops for native Windows UI only when needed. "
     +:+ "When approval is required, CALL human_confirm(step) and proceed only if it returns 'yes'. "
     +:+ "Do NOT ask for confirmation via plain chat.")
    (Some 20%nat).

Definition mission : string :=
  "Install Git (winget id Git.Git) and Visual Studio Code (winget id Microsoft.VisualStudioCode) "
  +:+ "silently using winget_install. Before each install, call human_confirm with a short description. "
  +:+ "After installing VS Code, call vscode_get_version() and report the version.".

(** [async with McpWorkbench(p) as wb: body]. *)
Definition with_workbench {A} (p : StdioServerParams) (body : prog A) : prog A :=
  call_raising (WorkbenchEnter p) id;;
  finally body (call_raising (WorkbenchExit p) id).

(** [not os.getenv(name)]: unset, or set to the empty text. *)
Definition not_set (v : option string) : bool :=
  match v with
  | None => true
  | Some s => negb (truthy s)
  end.

(** Lines 56-114, what [main] does once the key check has passed. *)
Definition crew : prog unit :=
  call_raising (NewModelClient model) id;;
  print "[INFO] Starting MCP servers (desktop + web)…";;
  with_workbench desktop_params (with_workbench web_params (
    print "[OK] Workbenches connected.";;
    call_raising (NewAssistantAgent desktop_ops) id;;
    call_raising (NewAssistantAgent web_ops) id;;
    call_raising (NewAssistantAgent supervisor) id;;
    print ("[TASK] " +:+ " " +:+ mission);;
    result ← call_raising (AgentRun supervisor mission) id;
    print (nl +:+ "[RESULT]" +:+ nl +:+ " " +:+ result)));;
  print (nl +:+ "[DONE] Crew finished.").

Definition main : prog unit :=
  print "[START] Multi-agent setup…";;
  key ← call (Getenv "OPENAI_API_KEY");
  (if not_set key then need_api_key_and_exit else mret ());;
  crew.

End Crew.

(** ** The supervisor loop *)

Module Orchestrator.

(** [supervisor.run] is the agent framework's loop, which the script only
    configures ([max_tool_iterations], [parallel_tool_calls]) and starts; its
    code is not part of [src/].  The definitions of this module follow the
    Orchestrator of the design: data model, registry contract, states and
    transitions of the supervisor loop, iteration cap. *)

(** Modelled from the spec: a tool call of the data model, tool name and
    arguments; the framework's own type is missing. *)
Record ToolCall := mkCall { call_tool : string; call_arguments : string }.

(** Modelled from the spec: a tool result of the data model. *)
Record ToolResult := mkResult {
  result_tool : string;
  result_output : string;
  result_success : bool
}.

(** Modelled from the spec: the turns of a ConversationState. *)
Inductive turn :=
| SystemTurn (instructions : string)
| MissionTurn (mission : string)
| CallTurn (c : ToolCall)
| ResultTurn (r : ToolResult)
| AnswerTurn (answer : string).

Abbreviation ConversationState := (list turn).

(** Modelled from the spec: what the Reasoning Engine binding, which is
    missing, can come back with: a final answer, exactly one tool call, or a
    failure of the engine itself. *)
Inductive decision :=
| FinalAnswer (answer : string)
| OneCall (c : ToolCall)
| EngineFailure (what : string).

(** Modelled from the spec: the states of the supervisor loop, with the
    run-level failure of the error taxonomy as a third terminal state. *)
Inductive phase :=
| AWAITING_DECISION
| DISPATCHING_TOOL (c : ToolCall)
| DONE (answer : string)
| ABORTED
| FAILED (what : string).

(** Modelled from the spec: a run in progress. *)
Record machine := mkMachine {
  state : phase;
  conversation : ConversationState;
  iterations : nat
}.

(** Modelled from the spec: the Tool Registry, missing from the source;
    names are unique, a taken name is refused. *)
Definition register (t : Tool) (reg : gmap string Tool)
  : option (gmap string Tool) :=
  match reg !! tool_name t with
  | Some _ => None
  | None => Some (<[tool_name t := t]> reg)
  end.

Fixpoint register_all (ts : list Tool) (reg : gmap string Tool)
  : option (gmap string Tool) :=
  match ts with
  | [] => Some reg
  | t :: ts' =>
      match register t reg with
      | Some reg' => register_all ts' reg'
      | None => None
      end
  end.

Definition resolve (reg : gmap string Tool) (name : string) : option Tool :=
  reg !! name.

Section Loop.

(** The Reasoning Engine binding, the execution of a resolved tool (an
    action, the approval gate or a nested run of a delegate, seen from
    the loop as text in and text out with a success flag), the registry
    and the cap. *)
Variable engine : ConversationState -> list string -> decision.
Variable execute : Tool -> string -> string * bool.
Variable registry : gmap string Tool.
Variable cap : nat.

Definition catalogue : list string := (map_to_list registry).*1.

(** Modelled from the spec: the initial state of the loop, the history
    seeded with the system instructions and the mission. *)
Definition initial (instructions mission : string) : machine :=
  mkMachine AWAITING_DECISION [SystemTurn instructions; MissionTurn mission] 0.

(** Modelled from the spec: the dispatch of one call through the registry;
    an unknown name gives an error result, not a fault. *)
Definition dispatch (c : ToolCall) : ToolResult :=
  match resolve registry (call_tool c) with
  | Some t =>
      let '(out, ok) := execute t (call_arguments c) in
      mkResult (call_tool c) out ok
  | None => mkResult (call_tool c) ("unknown tool: " +:+ call_tool c) false
  end.

(** Modelled from the spec: the transitions of the supervisor loop, whose
    code (the framework's [run]) is missing.  Awaiting a decision with the
    counter at the cap aborts; otherwise the engine is asked and its answer
    ends the run or becomes the call to dispatch; dispatching appends the
    result and increments the counter. *)
Definition step (m : machine) : machine :=
  match state m with
  | AWAITING_DECISION =>
      if (cap <=? iterations m)%nat
      then mkMachine ABORTED (conversation m) (iterations m)
      else
        match engine (conversation m) catalogue with
        | FinalAnswer a =>
            mkMachine (DONE a) (conversation m ++ [AnswerTurn a]) (iterations m)
        | OneCall c =>
            mkMachine (DISPATCHING_TOOL c) (conversation m ++ [CallTurn c])
                      (iterations m)
        | EngineFailure what =>
            mkMachine (FAILED what) (conversation m) (iterations m)
        end
  | DISPATCHING_TOOL c =>
      mkMachine AWAITING_DECISION (conversation m ++ [ResultTurn (dispatch c)])
                (S (iterations m))
  | DONE _ | ABORTED | FAILED _ => m
  end.

Definition terminal (m : machine) : bool :=
  match state m with
  | DONE _ | ABORTED | FAILED _ => true
  | AWAITING_DECISION | DISPATCHING_TOOL _ => false
  end.

(** The machine after [n] transitions. *)
Fixpoint steps (n : nat) (m : machine) : machine :=
  match n with
  | O => m
  | S n' => steps n' (step m)
  end.

(** Modelled from the spec: a run of the loop, transitions until a terminal
    state, within [fuel]. *)
Fixpoint run (fuel : nat) (m : machine) : option machine :=
  if terminal m then Some m
  else match fuel with
       | O => None
       | S fuel' => run fuel' (step m)
       end.

(** Modelled from the spec: [supervisor.run(task=mission)]; two
    transitions per permitted cycle and one to end are fuel enough. *)
Definition supervisor_run (instructions mission : string) : option machine :=
  run (2 * cap + 1) (initial instructions mission).

End Loop.

Definition is_call (t : turn) : bool :=
  match t with CallTurn _ => true | _ => false end.
Definition is_result (t : turn) : bool :=
  match t with ResultTurn _ => true | _ => false end.

Definition calls_issued (conv : ConversationState) : nat :=
  length (List.filter is_call conv).
Definition results_appended (conv : ConversationState) : nat :=
  length (List.filter is_result conv).

(** Tool calls issued and not yet answered. *)
Definition in_flight (conv : ConversationState) : nat :=
  (calls_issued conv - results_appended conv)%nat.

(** Strict sequencing: every call is followed at once by the result of the
    same tool, except a call that closes the history, which is the one in
    flight; no result without its call. *)
Fixpoint sequenced (conv : ConversationState) : bool :=
  match conv with
  | [] => true
  | CallTurn c :: rest =>
      match rest with
      | [] => true
      | ResultTurn r :: rest' =>
          String.eqb (result_tool r) (call_tool c) && sequenced rest'
      | _ => false
      end
  | ResultTurn _ :: _ => false
  | _ :: rest => sequenced rest
  end.

(** The call that closes the history, if the history ends with one. *)
Fixpoint pending (conv : ConversationState) : option ToolCall :=
  match conv with
  | [] => None
  | t :: rest =>
      match rest with
      | [] => match t with CallTurn c => Some c | _ => None end
      | _ :: _ => pending rest
      end
  end.

(** What may follow a history: a result of the pending call's tool when a
    call is pending, anything but a result otherwise. *)
Definition may_follow (conv : ConversationState) (t : turn) : Prop :=
  match pending conv, t with
  | Some c, ResultTurn r => result_tool r = call_tool c
  | Some _, _ => False
  | None, ResultTurn _ => False
  | None, _ => True
  end.

(** The call a machine is busy with. *)
Definition dispatching (p : phase) : option ToolCall :=
  match p with DISPATCHING_TOOL c => Some c | _ => None end.

Definition busy (p : phase) : nat :=
  match p with DISPATCHING_TOOL _ => 1%nat | _ => 0%nat end.

(** Where the iteration counter stands against the cap in each state. *)
Definition within (cap : nat) (m : machine) : Prop :=
  match state m with
  | AWAITING_DECISION => (iterations m <= cap)%nat
  | DISPATCHING_TOOL _ | DONE _ | FAILED _ => (iterations m < cap)%nat
  | ABORTED => iterations m = cap
  end.

(** The history and the counter agree with the state. *)
Definition consistent (cap : nat) (m : machine) : Prop :=
  sequenced (conversation m) = true
  /\ pending (conversation m) = dispatching (state m)
  /\ results_appended (conversation m) = iterations m
  /\ calls_issued (conversation m) = (iterations m + busy (state m))%nat
  /\ within cap m.

(** Transitions a machine is at most away from a terminal state. *)
Definition remaining (cap : nat) (m : machine) : nat :=
  match state m with
  | AWAITING_DECISION => (2 * (cap - iterations m) + 1)%nat
  | DISPATCHING_TOOL _ => (2 * (cap - iterations m))%nat
  | DONE _ | ABORTED | FAILED _ => 0%nat
  end.

(** The cap the script configures, with the framework's default where it
    configures none. *)
Definition cap_of (framework_default : nat) (a : AssistantAgent) : nat :=
  default framework_default (agent_max_tool_iterations a).

End Orchestrator.

(** ** Environments *)

(** An environment with no console input, no variables, no files and no
    commands; the console prints everything, the framework accepts every
    construction and runs return the empty text. *)
Definition bare : world :=
  fun e =>
    match e with
    | Print _ => inr tt
    | Input _ => inl EOFError
    | Getenv _ => None
    | Which _ => None
    | Expandvars p => p
    | PathExists _ => false
    | SubprocessRun _ => inl (OSError "No such file or directory")
    | NewModelClient _ => inr tt
    | WorkbenchEnter _ => inr tt
    | WorkbenchExit _ => inr tt
    | NewAssistantAgent _ => inr tt
    | AgentRun _ _ => inr ""
    end.

(** The human types [line] at every prompt. *)
Definition typing (line : string) (w : world) : world :=
  fun e =>
    match e as e0 return resp e0 with
    | Input _ => inr line
    | e0 => w e0
    end.

(** The variable [name] is set to [value]. *)
Definition setenv (name value : string) (w : world) : world :=
  fun e =>
    match e as e0 return resp e0 with
    | Getenv n => if String.eqb n name then Some value else w (Getenv n)
    | e0 => w e0
    end.

(** [shutil.which] finds [cmd] at [path]. *)
Definition on_path (cmd path : string) (w : world) : world :=
  fun e =>
    match e as e0 return resp e0 with
    | Which c => if String.eqb c cmd then Some path else w (Which c)
    | e0 => w e0
    end.

(** A file exists at [path]. *)
Definition with_file (path : string) (w : world) : world :=
  fun e =>
    match e as e0 return resp e0 with
    | PathExists p => if String.eqb p path then true else w (PathExists p)
    | e0 => w e0
    end.

(** The command line [argv] runs to completion as [p]. *)
Definition with_command (argv : list string) (p : CompletedProcess) (w : world)
  : world :=
  fun e =>
    match e as e0 return resp e0 with
    | SubprocessRun a =>
        if bool_decide (a = argv) then inr p else w (SubprocessRun a)
    | e0 => w e0
    end.

(** Two machines for the version probe.  On [silent_install] a file sits
    at both Program Files locations; the first prints nothing when asked for
    its version, the second prints its three lines.  On [one_install] only
    the second location holds a file. *)
Definition version_text : string :=
  "1.85.0" +:+ nl +:+ "0ee08df0cf4527e40edc9aa28f4b5bd38bbff2b2" +:+ nl +:+ "x64" +:+ nl.

Definition one_install : world :=
  with_file Crew.program_files_x86_code
    (with_command [Crew.program_files_x86_code; "--version"]
                  (mkCompleted 0 version_text "") bare).

Definition silent_install : world :=
  with_file Crew.program_files_code
    (with_command [Crew.program_files_code; "--version"] (mkCompleted 0 "" "")
                  one_install).


(** The supervisor's run fails in the framework. *)
Definition run_fails (what : string) (w : world) : world :=
  fun e =>
    match e as e0 return resp e0 with
    | AgentRun _ _ => inl (FrameworkError what)
    | e0 => w e0
    end.

(** ** Notions of the specification *)

(** Two texts match case-insensitively. *)
Definition ci_match (a b : string) : bool := String.eqb (lower a) (lower b).

(** An affirmative token: "y" or "yes", case-insensitively. *)
Definition affirmative (t : string) : bool := ci_match t "y" || ci_match t "yes".

(** The first line of a text: what stands before its first line boundary. *)
Fixpoint first_line (s : string) : string :=
  match s with
  | EmptyString => EmptyString
  | String c s' => if islinebreak c then EmptyString else String c (first_line s')
  end.


Definition is_probe (e : eff) : bool :=
  match e with PathExists _ => true | _ => false end.


Import Crew.

(** What trying one candidate gives: nothing (no path, no file, or a blank
    output), a version line, or the exception of a command that could not be
    run. *)
Inductive finding :=
| Nothing
| Version (line : string)
| Failure (e : exn).

Definition version_argv (exe : string) : list string := [exe; "--version"].

Definition try_candidate (w : world) (exe : string) : finding :=
  if truthy exe && w (PathExists exe) then
    match w (SubprocessRun (version_argv exe)) with
    | inl e => Failure e
    | inr r =>
        let out := strip (por (stdout r) (stderr r)) in
        if truthy out then Version (first_line out) else Nothing
    end
  else Nothing.

Fixpoint first_finding (fs : list finding) : outcome string :=
  match fs with
  | [] => Returned "unknown"
  | Nothing :: rest => first_finding rest
  | Version v :: _ => Returned v
  | Failure e :: _ => Raised e
  end.

(** The requests one candidate costs. *)
Definition requests_for (w : world) (exe : string) : list eff :=
  if truthy exe then
    if w (PathExists exe)
    then [PathExists exe; SubprocessRun (version_argv exe)]
    else [PathExists exe]
  else [].

Definition key_name : string := "OPENAI_API_KEY".


Definition setup_messages : list eff :=
  [Print (nl +:+ "[SETUP] OPENAI_API_KEY is not set.");
   Print "Set it via: Start → 'Environment Variables' → 'Environment Variables…' → New (User)";
   Print ("  Name: OPENAI_API_KEY   Value: <your key>" +:+ nl
          +:+ "Then reopen PowerShell and run again." +:+ nl)].

(** A request that can raise went through. *)
Definition succeeded {A} (r : exn + A) : bool :=
  match r with inr _ => true | inl _ => false end.

(** A trace of the probing loop in which nothing is run unchecked: it is
    made of existence checks, and a command is run only right after the
    check of its own executable, answered positively, and only with the
    single argument "--version". *)
Fixpoint runs_guarded (w : world) (t : list eff) : Prop :=
  match t with
  | [] => True
  | PathExists exe :: rest =>
      match rest with
      | SubprocessRun argv :: rest' =>
          w (PathExists exe) = true /\ argv = [exe; "--version"]
          /\ runs_guarded w rest'
      | _ => runs_guarded w rest
      end
  | _ => False
  end.

(** The last line [main] prints. *)
Definition done_message : eff := Print (nl +:+ "[DONE] Crew finished.").

(** Everything the framework is asked for on the way to the supervisor's
    run went through. *)
Definition framework_ready (w : world) : bool :=
  succeeded (w (NewModelClient model))
  && succeeded (w (WorkbenchEnter desktop_params))
  && succeeded (w (WorkbenchEnter web_params))
  && succeeded (w (NewAssistantAgent desktop_ops))
  && succeeded (w (NewAssistantAgent web_ops))
  && succeeded (w (NewAssistantAgent supervisor)).

(** ** Python text: lemmas *)

Lemma app_cons (c : ascii) (s t : string) : String c s +:+ t = String c (s +:+ t).
Proof. reflexivity. Qed.

Lemma app_empty_r (s : string) : s +:+ "" = s.
Proof. induction s as [|c s IH]; [reflexivity|]. rewrite app_cons, IH. reflexivity. Qed.

Lemma app_assoc_str (a b c : string) : (a +:+ b) +:+ c = a +:+ (b +:+ c).
Proof.
  induction a as [|x a IH]; [reflexivity|]. rewrite !app_cons, IH. reflexivity.
Qed.

Ltac each_char c := destruct c as [[] [] [] [] [] [] [] []].

Lemma isspace_lower_char c : isspace (lower_char c) = isspace c.
Proof. each_char c; reflexivity. Qed.

Lemma islinebreak_isspace c : islinebreak c = true -> isspace c = true.
Proof. each_char c; vm_compute; congruence. Qed.

Lemma lstrip_blank s : blank s = true -> lstrip s = "".
Proof.
  induction s as [|c s IH]; cbn; [reflexivity|].
  intros [Hc Hs]%andb_prop. rewrite Hc. auto.
Qed.

Lemma rstrip_blank s : blank s = true -> rstrip s = "".
Proof.
  induction s as [|c s IH]; cbn; [reflexivity|].
  intros [Hc Hs]%andb_prop. rewrite (IH Hs), Hc. reflexivity.
Qed.

Lemma lstrip_app_blank l s : blank l = true -> lstrip (l +:+ s) = lstrip s.
Proof.
  induction l as [|c l IH]; [reflexivity|].
  cbn [blank]. intros [Hc Hl]%andb_prop. rewrite app_cons. cbn [lstrip].
  rewrite Hc. auto.
Qed.

Lemma rstrip_app_blank s r : blank r = true -> rstrip (s +:+ r) = rstrip s.
Proof.
  intros Hr. induction s as [|c s IH].
  - change ("" +:+ r) with r. rewrite rstrip_blank by assumption. reflexivity.
  - rewrite app_cons. cbn [rstrip]. rewrite IH. reflexivity.
Qed.

Lemma rstrip_keeps_head c s :
  isspace c = false -> rstrip (String c s) = String c (rstrip s).
Proof. intros Hc. cbn [rstrip]. rewrite Hc. destruct (rstrip s); reflexivity. Qed.

Lemma lstrip_head s :
  lstrip s = "" \/ exists c t, lstrip s = String c t /\ isspace c = false.
Proof.
  induction s as [|c s IH]; cbn [lstrip]; [left; reflexivity|].
  destruct (isspace c) eqn:Hc; [exact IH|]. right. eauto.
Qed.

Lemma strip_head s :
  strip s = "" \/ exists c t, strip s = String c t /\ isspace c = false.
Proof.
  unfold strip. destruct (lstrip_head s) as [->|(c & t & -> & Hc)].
  - left. reflexivity.
  - right. exists c, (rstrip t). split; [apply rstrip_keeps_head|]; assumption.
Qed.

Lemma strip_blank s : blank s = true -> strip s = "".
Proof. intros H. unfold strip. rewrite lstrip_blank by assumption. reflexivity. Qed.

Lemma strip_pad l s r :
  blank l = true -> blank r = true -> strip (l +:+ s +:+ r) = strip s.
Proof.
  intros Hl Hr. unfold strip. rewrite lstrip_app_blank by assumption.
  induction s as [|c s IH].
  - change ("" +:+ r) with r. rewrite lstrip_blank by assumption. reflexivity.
  - rewrite app_cons. cbn [lstrip]. destruct (isspace c); [exact IH|].
    rewrite <- app_cons. apply rstrip_app_blank. assumption.
Qed.

Lemma lower_lstrip s : lower (lstrip s) = lstrip (lower s).
Proof.
  induction s as [|c s IH]; [reflexivity|].
  cbn [lower lstrip]. rewrite isspace_lower_char.
  destruct (isspace c); [exact IH | reflexivity].
Qed.

Lemma lower_rstrip s : lower (rstrip s) = rstrip (lower s).
Proof.
  induction s as [|c s IH]; [reflexivity|].
  cbn [lower rstrip]. rewrite <- IH, isspace_lower_char.
  destruct (rstrip s); [destruct (isspace c)|]; reflexivity.
Qed.

Lemma lower_strip s : lower (strip s) = strip (lower s).
Proof. unfold strip. rewrite lower_rstrip, lower_lstrip. reflexivity. Qed.

Lemma truthy_app_l a b : truthy a = true -> truthy (a +:+ b) = true.
Proof. destruct a; [discriminate | reflexivity]. Qed.

Lemma splitlines_from_head cur s :
  truthy (cur +:+ s) = true ->
  head (splitlines_from cur false s) = Some (cur +:+ first_line s).
Proof.
  revert cur. induction s as [|c s IH]; intros cur H.
  - cbn. rewrite app_empty_r in *. rewrite H. reflexivity.
  - cbn [splitlines_from first_line andb]. destruct (islinebreak c).
    + rewrite app_empty_r. reflexivity.
    + rewrite IH.
      * rewrite app_assoc_str. reflexivity.
      * apply truthy_app_l. destruct cur; reflexivity.
Qed.

Lemma splitlines_head s :
  truthy s = true -> head (splitlines s) = Some (first_line s).
Proof. intros H. unfold splitlines. rewrite splitlines_from_head; auto. Qed.

(** ** Running the tools *)

Lemma interp_human_confirm (w : world) step :
  interp w (human_confirm step) =
  ([Input (confirm_prompt step)],
   match w (Input (confirm_prompt step)) with
   | inl e => Raised e
   | inr line =>
       Returned (if in_tuple (lower (strip line)) ["y"; "yes"] then "yes" else "no")
   end).
Proof.
  unfold human_confirm, input, call_raising, mbind, prog_bind. cbn.
  destruct (w (Input (confirm_prompt step))); reflexivity.
Qed.

Lemma interp_winget_install (w : world) package_id silent :
  interp w (winget_install package_id silent) =
  ([SubprocessRun (winget_args package_id silent)],
   match w (SubprocessRun (winget_args package_id silent)) with
   | inl e => Raised e
   | inr p => Returned (por (strip (stdout p +:+ stderr p)) "done")
   end).
Proof.
  unfold winget_install, subprocess_run, call_raising, mbind, prog_bind. cbn.
  destruct (w (SubprocessRun (winget_args package_id silent))); reflexivity.
Qed.

Lemma in_tuple_affirmative t : in_tuple (lower t) ["y"; "yes"] = affirmative t.
Proof.
  unfold in_tuple, affirmative, ci_match. cbn. rewrite orb_false_r. reflexivity.
Qed.

Lemma lower_char_inv c :
  (lower_char c = "y"%char -> c = "y"%char \/ c = "Y"%char) /\
  (lower_char c = "e"%char -> c = "e"%char \/ c = "E"%char) /\
  (lower_char c = "s"%char -> c = "s"%char \/ c = "S"%char).
Proof. each_char c; vm_compute; repeat split; intros; (discriminate || auto). Qed.

(** The affirmative tokens, spelled out. *)
Lemma affirmative_tokens t :
  affirmative t = true <->
  In t ["y"; "Y"; "yes"; "yeS"; "yEs"; "yES"; "Yes"; "YeS"; "YEs"; "YES"].
Proof.
  split.
  - unfold affirmative, ci_match. intros [H|H]%orb_prop; apply String.eqb_eq in H.
    + destruct t as [|a [|b t]]; cbn in H; try discriminate.
      injection H as Ha. apply lower_char_inv in Ha as [-> | ->]; cbn; auto.
    + destruct t as [|a [|b [|c [|d t]]]]; cbn in H; try discriminate.
      injection H as Ha Hb Hc.
      apply lower_char_inv in Ha as [-> | ->];
        apply lower_char_inv in Hb as [-> | ->];
        apply lower_char_inv in Hc as [-> | ->]; cbn; tauto.
  - cbn. intros H. repeat (destruct H as [<- | H]; [reflexivity|]). destruct H.
Qed.

Lemma affirmative_strip s : affirmative s = true -> affirmative (strip s) = true.
Proof.
  unfold affirmative, ci_match. rewrite lower_strip.
  intros [H|H]%orb_prop; apply String.eqb_eq in H; rewrite H; reflexivity.
Qed.

Lemma affirmative_blank s : blank s = true -> affirmative (strip s) = false.
Proof. intros H. rewrite strip_blank by assumption. reflexivity. Qed.

Lemma rstrip_cons c s :
  rstrip (String c s)
  = match rstrip s with
    | EmptyString => if isspace c then EmptyString else String c EmptyString
    | r => String c r
    end.
Proof. reflexivity. Qed.

Lemma rstrip_idem s : rstrip (rstrip s) = rstrip s.
Proof.
  induction s as [|c s IH]; [reflexivity|].
  rewrite (rstrip_cons c s). destruct (rstrip s) as [|d r] eqn:E.
  - destruct (isspace c) eqn:Hc; [reflexivity|]. cbn. rewrite Hc. reflexivity.
  - rewrite (rstrip_cons c (String d r)), IH. reflexivity.
Qed.

Lemma strip_idem s : strip (strip s) = strip s.
Proof.
  destruct (strip_head s) as [E|(c & t & E & Hc)]; rewrite E; [reflexivity|].
  unfold strip at 1. cbn [lstrip]. rewrite Hc, <- E. unfold strip.
  apply rstrip_idem.
Qed.

Lemma por_empty (s d : string) : s = "" -> por s d = d.
Proof. intros ->. reflexivity. Qed.

Lemma por_nonempty (s d : string) : s <> "" -> por s d = s.
Proof. destruct s; [congruence | reflexivity]. Qed.

Lemma truthy_true s : truthy s = true <-> s <> "".
Proof. destruct s; cbn; split; congruence. Qed.

(** ** The approval gate *)

(** C1, as the code has it: for every line the approval gate reads,
    [human_confirm] returns exactly "yes" when the line, its surrounding white
    space removed, matches "y" or "yes" case-insensitively (it is then one of
    the ten spellings of the two words), and exactly "no" for every other
    line; the empty line gives "no". *)
Theorem human_confirm_default_deny (w : world) (step line : string) :
  w (Input (confirm_prompt step)) = inr line ->
  result_of w (human_confirm step)
  = Returned (if affirmative (strip line) then "yes" else "no")
  /\ (result_of w (human_confirm step) = Returned "yes" <->
      In (strip line)
         ["y"; "Y"; "yes"; "yeS"; "yEs"; "yES"; "Yes"; "YeS"; "YEs"; "YES"])
  /\ (line = "" -> result_of w (human_confirm step) = Returned "no").
Proof.
  intros H. unfold result_of. rewrite interp_human_confirm. cbn [snd].
  rewrite H, in_tuple_affirmative. split; [reflexivity|]. split.
  - rewrite <- affirmative_tokens.
    destruct (affirmative (strip line)); split; congruence.
  - intros ->. reflexivity.
Qed.

Lemma human_confirm_default_deny_witness :
  typing "Yes" bare (Input (confirm_prompt "install Git")) = inr "Yes"
  /\ result_of (typing "Yes" bare) (human_confirm "install Git") = Returned "yes".
Proof.
  split; [reflexivity|].
  apply (proj1 (human_confirm_default_deny (typing "Yes" bare) "install Git" "Yes"
                  eq_refl)).
Defined.

(** C1, as stated, fails: the line " y " does not match "y" or "yes"
    case-insensitively, yet [human_confirm] answers "yes" to it. *)
Lemma human_confirm_raw_match_fails :
  typing " y " bare (Input (confirm_prompt "install Git")) = inr " y "
  /\ affirmative " y " = false
  /\ result_of (typing " y " bare) (human_confirm "install Git") = Returned "yes"
  /\ result_of (typing " y " bare) (human_confirm "install Git")
     <> Returned (if affirmative " y " then "yes" else "no").
Proof. repeat split; vm_compute; congruence. Qed.

(** C9: [human_confirm] removes the white space before and after the line
    it reads and matches what is left: a line padded with white space on
    both sides is answered as its core is, an affirmative core ("  Y  ",
    "YES ") gives "yes", and a line of white space only gives "no". *)
Theorem human_confirm_strips (w : world) (step l s r : string) :
  blank l = true -> blank r = true ->
  w (Input (confirm_prompt step)) = inr (l +:+ s +:+ r) ->
  result_of w (human_confirm step)
  = Returned (if affirmative (strip s) then "yes" else "no")
  /\ (affirmative s = true -> result_of w (human_confirm step) = Returned "yes")
  /\ (blank s = true -> result_of w (human_confirm step) = Returned "no").
Proof.
  intros Hl Hr H. unfold result_of. rewrite interp_human_confirm. cbn [snd].
  rewrite H, in_tuple_affirmative, strip_pad by assumption.
  split; [reflexivity|]. split; intros Hs.
  - rewrite affirmative_strip by assumption. reflexivity.
  - rewrite affirmative_blank by assumption. reflexivity.
Qed.

Lemma human_confirm_strips_witness :
  result_of (typing "  Y  " bare) (human_confirm "install Git") = Returned "yes"
  /\ result_of (typing "YES " bare) (human_confirm "install Git") = Returned "yes"
  /\ result_of (typing "   " bare) (human_confirm "install Git") = Returned "no".
Proof.
  split; [|split].
  - apply (human_confirm_strips (typing "  Y  " bare) "install Git" "  " "Y" "  ");
      reflexivity.
  - apply (human_confirm_strips (typing "YES " bare) "install Git" "" "YES" " ");
      reflexivity.
  - apply (human_confirm_strips (typing "   " bare) "install Git" "" "   " "");
      reflexivity.
Defined.

(** ** The package-install tool *)

(** C2, as the code has it: for every package identifier, a failure that
    the install command reports itself (a non-zero exit status, an error
    text) is data: whenever [subprocess.run] returns the completed process
    with its two streams captured as text, whatever the exit status,
    [winget_install] does not raise and returns the combined stdout+stderr
    text as its result.  An exception of [subprocess.run] itself (the command
    cannot be started, its output cannot be decoded) is not caught: it comes
    out of [winget_install] unchanged. *)
Theorem winget_install_failure_is_data (w : world) (package_id : string) (silent : bool) :
  (forall p, w (SubprocessRun (winget_args package_id silent)) = inr p ->
             result_of w (winget_install package_id silent)
             = Returned (por (strip (stdout p +:+ stderr p)) "done"))
  /\ (forall e, w (SubprocessRun (winget_args package_id silent)) = inl e ->
                result_of w (winget_install package_id silent) = Raised e).
Proof.
  unfold result_of. rewrite interp_winget_install. cbn [snd].
  split.
  - intros p ->. reflexivity.
  - intros e ->. reflexivity.
Qed.

Lemma winget_install_failure_is_data_witness :
  let failed := mkCompleted 1 "" "No package found matching input criteria." in
  let w := with_command (winget_args "Git.Gti" true) failed bare in
  w (SubprocessRun (winget_args "Git.Gti" true)) = inr failed
  /\ result_of w (winget_install "Git.Gti" true)
     = Returned "No package found matching input criteria.".
Proof.
  intros failed w. split; [reflexivity|].
  apply (proj1 (winget_install_failure_is_data w "Git.Gti" true) failed).
  reflexivity.
Defined.

(** C2, as stated, fails: where the winget command cannot be started,
    [winget_install] raises and returns nothing. *)
Lemma winget_install_can_raise :
  bare (SubprocessRun (winget_args "Git.Git" true))
  = inl (OSError "No such file or directory")
  /\ result_of bare (winget_install "Git.Git" true)
     = Raised (OSError "No such file or directory")
  /\ forall text, result_of bare (winget_install "Git.Git" true) <> Returned text.
Proof. repeat split. intros text. vm_compute. congruence. Qed.

(** C3, as the code has it: for every package identifier,
    [winget_install] runs one command, winget with the identifier and, when
    [silent] is true (its default), the three fixed silent-mode flags; with
    [silent] false the identifier is passed with no flag.  Once the command
    has completed it returns its standard output followed by its standard
    error, stripped, or "done" when that stripped text is empty; so the
    returned text is "done" exactly when the stripped text is empty or is
    itself the word "done". *)
Theorem winget_install_silent_output (w : world) (package_id : string)
    (silent : bool) (p : CompletedProcess) :
  w (SubprocessRun (winget_args package_id silent)) = inr p ->
  let merged := strip (stdout p +:+ stderr p) in
  winget_args package_id true
  = ["winget"; "install"; "--id"; package_id; "--silent";
     "--accept-source-agreements"; "--accept-package-agreements"]
  /\ winget_args package_id false = ["winget"; "install"; "--id"; package_id]
  /\ trace_of w (winget_install package_id silent)
     = [SubprocessRun (winget_args package_id silent)]
  /\ strip merged = merged
  /\ (merged = "" -> result_of w (winget_install package_id silent) = Returned "done")
  /\ (merged <> "" -> result_of w (winget_install package_id silent) = Returned merged)
  /\ (result_of w (winget_install package_id silent) = Returned "done" <->
      merged = "" \/ merged = "done").
Proof.
  intros H merged. unfold trace_of, result_of. rewrite interp_winget_install.
  cbn [fst snd]. rewrite H. fold merged.
  split; [reflexivity|]. split; [reflexivity|]. split; [reflexivity|].
  split; [apply strip_idem|].
  destruct merged as [|c rest] eqn:E.
  - split; [reflexivity|]. split; [congruence|]. split; auto.
  - split; [discriminate|]. split; [reflexivity|]. cbn [por truthy].
    split; [intros Hd; right; congruence|].
    intros [Hd|Hd]; [discriminate | rewrite Hd; reflexivity].
Qed.

Lemma winget_install_silent_output_witness :
  let ok := mkCompleted 0 (nl +:+ "Successfully installed" +:+ nl) "" in
  let w := with_command (winget_args "Git.Git" true) ok bare in
  result_of w (winget_install "Git.Git" true) = Returned "Successfully installed"
  /\ result_of (with_command (winget_args "Git.Git" false) (mkCompleted 0 " " nl) bare)
       (winget_install "Git.Git" false) = Returned "done".
Proof.
  intros ok w. split.
  - apply (proj1 (proj2 (proj2 (proj2 (proj2 (proj2
             (winget_install_silent_output w "Git.Git" true ok eq_refl))))))).
    vm_compute. congruence.
  - apply (proj1 (proj2 (proj2 (proj2 (proj2
             (winget_install_silent_output
                (with_command (winget_args "Git.Git" false) (mkCompleted 0 " " nl) bare)
                "Git.Git" false (mkCompleted 0 " " nl) eq_refl)))))).
    reflexivity.
Defined.

(** C3, as stated, fails twice.  A command that prints the word "done" gets
    "done" for an answer although its merged output is not empty; and a call
    with [silent] false passes none of the silent-mode flags. *)
Lemma winget_install_done_is_in_band :
  (let said_done := mkCompleted 0 ("done" +:+ nl) "" in
   let w := with_command (winget_args "Git.Git" true) said_done bare in
   w (SubprocessRun (winget_args "Git.Git" true)) = inr said_done
   /\ strip (stdout said_done +:+ stderr said_done) <> ""
   /\ result_of w (winget_install "Git.Git" true) = Returned "done")
  /\ trace_of bare (winget_install "Git.Git" false)
     = [SubprocessRun ["winget"; "install"; "--id"; "Git.Git"]].
Proof. repeat split. vm_compute. congruence. Qed.

Lemma interp_probe_cons (w : world) exe rest :
  interp w (probe (exe :: rest)) =
  match try_candidate w exe with
  | Nothing =>
      let '(t, o) := interp w (probe rest) in (requests_for w exe ++ t, o)
  | Version v => (requests_for w exe, Returned v)
  | Failure e => (requests_for w exe, Raised e)
  end.
Proof.
  unfold try_candidate, requests_for, version_argv. cbn [probe].
  destruct (truthy exe); cbn [andb]; [|destruct (interp w (probe rest)); reflexivity].
  unfold call, subprocess_run, call_raising, mbind, prog_bind, mret, prog_ret.
  cbn [bind interp]. destruct (w (PathExists exe)).
  - cbn [bind interp]. destruct (w (SubprocessRun [exe; "--version"])) as [e|r];
      cbn [id bind interp]; [reflexivity|].
    destruct (truthy (strip (por (stdout r) (stderr r)))) eqn:Hout.
    + pose proof (splitlines_head _ Hout) as Hh.
      destruct (splitlines (strip (por (stdout r) (stderr r)))); cbn in Hh;
        [discriminate|]. injection Hh as ->. reflexivity.
    + destruct (interp w (probe rest)). reflexivity.
  - destruct (interp w (probe rest)). reflexivity.
Qed.

Lemma result_probe (w : world) candidates :
  result_of w (probe candidates) = first_finding (map (try_candidate w) candidates).
Proof.
  unfold result_of. induction candidates as [|exe rest IH]; [reflexivity|].
  rewrite interp_probe_cons. cbn [map first_finding].
  destruct (try_candidate w exe); [|reflexivity..].
  destruct (interp w (probe rest)). exact IH.
Qed.

Lemma result_probe_app (w : world) pre rest :
  Forall (fun exe => try_candidate w exe = Nothing) pre ->
  result_of w (probe (pre ++ rest)) = result_of w (probe rest).
Proof.
  intros H. rewrite !result_probe, map_app.
  induction H as [|exe pre Hexe _ IH]; [reflexivity|].
  cbn [map app first_finding]. rewrite Hexe. exact IH.
Qed.

Lemma trace_probe_app (w : world) pre rest :
  Forall (fun exe => try_candidate w exe = Nothing) pre ->
  trace_of w (probe (pre ++ rest))
  = concat (map (requests_for w) pre) ++ trace_of w (probe rest).
Proof.
  unfold trace_of. induction 1 as [|exe pre Hexe _ IH]; [reflexivity|].
  cbn [app map concat]. rewrite interp_probe_cons, Hexe.
  destruct (interp w (probe (pre ++ rest))) as [t o]. cbn [fst] in *.
  rewrite IH, app_assoc. reflexivity.
Qed.

Lemma try_candidate_missing (w : world) exe :
  w (PathExists exe) = false -> try_candidate w exe = Nothing.
Proof. intros H. unfold try_candidate. rewrite H, andb_false_r. reflexivity. Qed.

Lemma interp_vscode_get_version (w : world) :
  interp w vscode_get_version =
  let '(t, o) :=
    interp w (probe (candidates_of (w (Which "code"))
                                   (w (Expandvars localappdata_code)))) in
  (Which "code" :: Expandvars localappdata_code :: t, o).
Proof.
  unfold vscode_get_version, call, mbind, prog_bind. cbn [bind interp].
  destruct (interp w (probe _)). reflexivity.
Qed.

Lemma result_vscode_get_version (w : world) :
  result_of w vscode_get_version =
  result_of w (probe (candidates_of (w (Which "code"))
                                    (w (Expandvars localappdata_code)))).
Proof.
  unfold result_of. rewrite interp_vscode_get_version.
  destruct (interp w (probe _)). reflexivity.
Qed.

Lemma trace_vscode_get_version (w : world) :
  trace_of w vscode_get_version =
  Which "code" :: Expandvars localappdata_code ::
  trace_of w (probe (candidates_of (w (Which "code"))
                                   (w (Expandvars localappdata_code)))).
Proof.
  unfold trace_of. rewrite interp_vscode_get_version.
  destruct (interp w (probe _)). reflexivity.
Qed.

Lemma probe_first_version (w : world) (candidates : list string) n exe v :
  candidates !! n = Some exe ->
  (forall i other, (i < n)%nat -> candidates !! i = Some other ->
                   try_candidate w other = Nothing) ->
  try_candidate w exe = Version v ->
  result_of w (probe candidates) = Returned v
  /\ trace_of w (probe candidates)
     = concat (map (requests_for w) (take n candidates)) ++ requests_for w exe.
Proof.
  intros Hn Hbefore Hexe.
  assert (Hpre : Forall (fun x => try_candidate w x = Nothing) (take n candidates)).
  { apply Forall_lookup_2. intros i x [Hx Hi]%lookup_take_Some. eauto. }
  rewrite <- (take_drop_middle _ _ _ Hn) at 1 2.
  rewrite result_probe_app, trace_probe_app by assumption.
  unfold result_of, trace_of. rewrite interp_probe_cons, Hexe. auto.
Qed.

Lemma probes_prefix (w : world) (candidates : list string) :
  List.filter is_probe (trace_of w (probe candidates))
  `prefix_of` map PathExists (List.filter truthy candidates).
Proof.
  unfold trace_of. induction candidates as [|exe rest IH]; [apply prefix_nil|].
  rewrite interp_probe_cons. unfold try_candidate, requests_for. cbn [List.filter].
  destruct (truthy exe); cbn [andb].
  - cbn [map]. destruct (w (PathExists exe)).
    + destruct (w (SubprocessRun (version_argv exe))) as [e|r].
      * apply prefix_cons, prefix_nil.
      * destruct (truthy _); [apply prefix_cons, prefix_nil|].
        destruct (interp w (probe rest)). apply prefix_cons, IH.
    + destruct (interp w (probe rest)). apply prefix_cons, IH.
  - destruct (interp w (probe rest)). exact IH.
Qed.

Lemma try_candidate_version (w : world) exe p :
  exe <> "" -> w (PathExists exe) = true ->
  w (SubprocessRun (version_argv exe)) = inr p ->
  try_candidate w exe
  = if truthy (strip (por (stdout p) (stderr p)))
    then Version (first_line (strip (por (stdout p) (stderr p))))
    else Nothing.
Proof.
  intros Hexe%truthy_true Hthere Hrun. unfold try_candidate.
  rewrite Hexe, Hthere, Hrun. reflexivity.
Qed.

(** C4, as the code has it: where no candidate install location exists,
    [vscode_get_version] returns "unknown"; where the Nth candidate is the
    first that exists and its version command prints a text that is not
    blank (standard output, or standard error when standard output is
    empty), it returns the first line of that text, surrounding white space
    removed. *)
Theorem vscode_get_version_first_install (w : world) :
  let candidates :=
    candidates_of (w (Which "code")) (w (Expandvars localappdata_code)) in
  (Forall (fun exe => w (PathExists exe) = false) candidates ->
   result_of w vscode_get_version = Returned "unknown")
  /\ (forall n exe p,
        candidates !! n = Some exe ->
        (forall i other, (i < n)%nat -> candidates !! i = Some other ->
                         w (PathExists other) = false) ->
        exe <> "" -> w (PathExists exe) = true ->
        w (SubprocessRun [exe; "--version"]) = inr p ->
        strip (por (stdout p) (stderr p)) <> "" ->
        result_of w vscode_get_version
        = Returned (first_line (strip (por (stdout p) (stderr p))))).
Proof.
  intros candidates. rewrite result_vscode_get_version. fold candidates. split.
  - intros Hnone. rewrite <- (app_nil_r candidates), result_probe_app; [reflexivity|].
    eapply Forall_impl; [exact Hnone|]. intros exe. apply try_candidate_missing.
  - intros n exe p Hn Hbefore Hexe Hthere Hrun Hout.
    apply (probe_first_version w candidates n exe); [assumption| |].
    + intros i other Hi Hother. apply try_candidate_missing. eauto.
    + rewrite (try_candidate_version w exe p) by assumption.
      apply truthy_true in Hout. rewrite Hout. reflexivity.
Qed.

Lemma vscode_get_version_first_install_witness :
  result_of bare vscode_get_version = Returned "unknown"
  /\ result_of one_install vscode_get_version = Returned "1.85.0".
Proof.
  split.
  - apply (proj1 (vscode_get_version_first_install bare)).
    repeat constructor.
  - apply (proj2 (vscode_get_version_first_install one_install) 2%nat
             program_files_x86_code (mkCompleted 0 version_text ""));
      try reflexivity.
    + intros [|[|i]] other Hi Hother; [| |lia];
        injection Hother as <-; reflexivity.
    + vm_compute. congruence.
    + vm_compute. congruence.
Defined.

(** C4, as stated, fails: on [silent_install] the first candidate that
    exists is the second of the list and its version output is empty, yet
    the tool returns "1.85.0", the first line of a later candidate's
    output. *)
Lemma vscode_get_version_skips_silent_install :
  let nothing := mkCompleted 0 "" "" in
  candidates_of (silent_install (Which "code"))
                (silent_install (Expandvars localappdata_code))
  = [localappdata_code; program_files_code; program_files_x86_code]
  /\ silent_install (PathExists localappdata_code) = false
  /\ silent_install (PathExists program_files_code) = true
  /\ silent_install (SubprocessRun [program_files_code; "--version"]) = inr nothing
  /\ result_of silent_install vscode_get_version = Returned "1.85.0"
  /\ result_of silent_install vscode_get_version
     <> Returned (first_line (stdout nothing))
  /\ result_of silent_install vscode_get_version
     <> Returned (first_line (stderr nothing)).
Proof. repeat split; vm_compute; congruence. Qed.

(** One turn of the loop on a candidate that exists and whose command
    completes. *)
Lemma probe_cons_choice (w : world) (exe : string) (rest : list string)
    (p : CompletedProcess) :
  exe <> "" -> w (PathExists exe) = true ->
  w (SubprocessRun [exe; "--version"]) = inr p ->
  (stdout p <> "" -> strip (stdout p) <> "" ->
   result_of w (probe (exe :: rest)) = Returned (first_line (strip (stdout p))))
  /\ (stdout p = "" -> strip (stderr p) <> "" ->
      result_of w (probe (exe :: rest)) = Returned (first_line (strip (stderr p))))
  /\ (strip (stdout p) = "" -> strip (stderr p) = "" ->
      result_of w (probe (exe :: rest)) = result_of w (probe rest)
      /\ trace_of w (probe (exe :: rest))
         = PathExists exe :: SubprocessRun [exe; "--version"]
           :: trace_of w (probe rest)).
Proof.
  intros Hexe Hthere Hrun.
  pose proof (try_candidate_version w exe p Hexe Hthere Hrun) as Htry.
  unfold result_of, trace_of. rewrite interp_probe_cons, Htry.
  unfold requests_for. apply truthy_true in Hexe. rewrite Hexe, Hthere.
  split; [|split].
  - intros Hout Hs. rewrite (por_nonempty _ _ Hout).
    apply truthy_true in Hs. rewrite Hs. reflexivity.
  - intros Hout Hs. rewrite (por_empty _ _ Hout).
    apply truthy_true in Hs. rewrite Hs. reflexivity.
  - intros Hout Herr.
    assert (Hblank : strip (por (stdout p) (stderr p)) = "").
    { unfold por. destruct (truthy (stdout p)); assumption. }
    rewrite Hblank. cbn [truthy].
    destruct (interp w (probe rest)). split; reflexivity.
Qed.

(** C10: when the loop of [vscode_get_version] comes to a candidate that
    exists and runs it, the version text is the standard output if that is
    not empty and the standard error otherwise; when both are empty once
    stripped, the tool does not return for that candidate and goes on with
    the candidates that follow it. *)
Theorem vscode_get_version_output_choice (w : world) (before after : list string)
    (exe : string) (p : CompletedProcess) :
  candidates_of (w (Which "code")) (w (Expandvars localappdata_code))
  = before ++ exe :: after ->
  Forall (fun other => try_candidate w other = Nothing) before ->
  exe <> "" -> w (PathExists exe) = true ->
  w (SubprocessRun [exe; "--version"]) = inr p ->
  (stdout p <> "" -> strip (stdout p) <> "" ->
   result_of w vscode_get_version = Returned (first_line (strip (stdout p))))
  /\ (stdout p = "" -> strip (stderr p) <> "" ->
      result_of w vscode_get_version = Returned (first_line (strip (stderr p))))
  /\ (strip (stdout p) = "" -> strip (stderr p) = "" ->
      result_of w vscode_get_version = result_of w (probe after)
      /\ trace_of w vscode_get_version
         = Which "code" :: Expandvars localappdata_code
           :: concat (map (requests_for w) before)
           ++ PathExists exe :: SubprocessRun [exe; "--version"]
           :: trace_of w (probe after)).
Proof.
  intros Hlist Hbefore Hexe Hthere Hrun.
  rewrite result_vscode_get_version, trace_vscode_get_version, Hlist.
  rewrite result_probe_app, trace_probe_app by assumption.
  destruct (probe_cons_choice w exe after p Hexe Hthere Hrun) as (Hout & Herr & Hnone).
  split; [exact Hout|]. split; [exact Herr|].
  intros Ho He. destruct (Hnone Ho He) as [Hres Htrace].
  split; [exact Hres|]. rewrite Htrace. reflexivity.
Qed.

Lemma vscode_get_version_output_choice_witness :
  let talks_on_stderr :=
    with_file program_files_code
      (with_command [program_files_code; "--version"]
                    (mkCompleted 0 "" (" 1.2.3" +:+ nl +:+ "x64")) bare) in
  result_of one_install vscode_get_version = Returned "1.85.0"
  /\ result_of talks_on_stderr vscode_get_version = Returned "1.2.3"
  /\ result_of silent_install vscode_get_version
     = result_of silent_install (probe [program_files_x86_code]).
Proof.
  intros talks_on_stderr. split; [|split].
  - apply (proj1 (vscode_get_version_output_choice one_install
                    [localappdata_code; program_files_code] []
                    program_files_x86_code (mkCompleted 0 version_text "")
                    eq_refl ltac:(repeat constructor)
                    ltac:(vm_compute; congruence) eq_refl eq_refl));
      vm_compute; congruence.
  - apply (proj1 (proj2 (vscode_get_version_output_choice talks_on_stderr
                    [localappdata_code] [program_files_x86_code]
                    program_files_code (mkCompleted 0 "" (" 1.2.3" +:+ nl +:+ "x64"))
                    eq_refl ltac:(repeat constructor)
                    ltac:(vm_compute; congruence) eq_refl eq_refl)));
      vm_compute; congruence.
  - apply (proj2 (proj2 (vscode_get_version_output_choice silent_install
                    [localappdata_code] [program_files_x86_code]
                    program_files_code (mkCompleted 0 "" "")
                    eq_refl ltac:(repeat constructor)
                    ltac:(vm_compute; congruence) eq_refl eq_refl)));
      reflexivity.
Defined.

(** When the standard output is not empty but blank, the standard error is
    not looked at and the candidate returns nothing. *)
Lemma probe_blank_stdout (w : world) (exe : string) (rest : list string)
    (p : CompletedProcess) :
  exe <> "" -> w (PathExists exe) = true ->
  w (SubprocessRun [exe; "--version"]) = inr p ->
  stdout p <> "" -> blank (stdout p) = true ->
  result_of w (probe (exe :: rest)) = result_of w (probe rest).
Proof.
  intros Hexe Hthere Hrun Hout Hblank.
  pose proof (try_candidate_version w exe p Hexe Hthere Hrun) as Htry.
  unfold result_of. rewrite interp_probe_cons, Htry.
  rewrite (por_nonempty _ _ Hout), strip_blank by assumption. cbn [truthy].
  destruct (interp w (probe rest)). reflexivity.
Qed.

(** C5, as the code has it: [vscode_get_version] looks up "code" first;
    the candidates are the path that lookup found, when it found one,
    followed by the three default install locations in the order of the
    script, and the loop asks for the candidates in that order.  The result
    is the version line of the first candidate that gives one, provided no
    candidate before it is an existing file whose version command cannot be
    run; a candidate of that kind, met before any version line, makes the
    tool raise the exception of its command; "unknown" is returned when no
    candidate gives anything. *)
Theorem vscode_get_version_priority (w : world) :
  let expanded := w (Expandvars localappdata_code) in
  let defaults := [expanded; program_files_code; program_files_x86_code] in
  let candidates := candidates_of (w (Which "code")) expanded in
  (forall path, w (Which "code") = Some path -> path <> "" ->
                candidates = path :: defaults)
  /\ (w (Which "code") = None -> candidates = defaults)
  /\ (exists t, trace_of w vscode_get_version
                = Which "code" :: Expandvars localappdata_code :: t
                /\ List.filter is_probe t
                   `prefix_of` map PathExists (List.filter truthy candidates))
  /\ (forall n exe v,
        candidates !! n = Some exe ->
        try_candidate w exe = Version v ->
        (forall i other, (i < n)%nat -> candidates !! i = Some other ->
                         (forall v', try_candidate w other <> Version v')
                         /\ (forall e, try_candidate w other <> Failure e)) ->
        result_of w vscode_get_version = Returned v)
  /\ (forall n exe e,
        candidates !! n = Some exe ->
        try_candidate w exe = Failure e ->
        (forall i other, (i < n)%nat -> candidates !! i = Some other ->
                         try_candidate w other = Nothing) ->
        result_of w vscode_get_version = Raised e)
  /\ (Forall (fun exe => try_candidate w exe = Nothing) candidates ->
      result_of w vscode_get_version = Returned "unknown").
Proof.
  intros expanded defaults candidates.
  rewrite result_vscode_get_version, trace_vscode_get_version.
  fold expanded candidates. repeat apply conj.
  - intros path Hpath Hne%truthy_true. unfold candidates, candidates_of.
    rewrite Hpath, Hne. reflexivity.
  - intros Hnone. unfold candidates, candidates_of. rewrite Hnone. reflexivity.
  - eexists. split; [reflexivity|]. apply probes_prefix.
  - intros n exe v Hn Hexe Hbefore.
    apply (probe_first_version w candidates n exe v Hn); [|exact Hexe].
    intros i other Hi Hother. destruct (Hbefore i other Hi Hother) as [Hv He].
    destruct (try_candidate w other) as [|v'|e]; [reflexivity| |].
    + destruct (Hv v' eq_refl).
    + destruct (He e eq_refl).
  - intros n exe e Hn Hexe Hbefore.
    assert (Hpre : Forall (fun x => try_candidate w x = Nothing) (take n candidates)).
    { apply Forall_lookup_2. intros i x [Hx Hi]%lookup_take_Some. eauto. }
    rewrite <- (take_drop_middle _ _ _ Hn), result_probe_app by assumption.
    unfold result_of. rewrite interp_probe_cons, Hexe. reflexivity.
  - intros Hnone. rewrite <- (app_nil_r candidates), result_probe_app by assumption.
    reflexivity.
Qed.

Lemma vscode_get_version_priority_witness :
  let cmd := "C:\Tools\VSCode\bin\code.cmd" in
  let w :=
    on_path "code" cmd
      (with_file cmd
         (with_command [cmd; "--version"] (mkCompleted 0 ("1.90.2" +:+ nl) "")
                       one_install)) in
  result_of w vscode_get_version = Returned "1.90.2"
  /\ result_of one_install vscode_get_version = Returned "1.85.0".
Proof.
  intros cmd w. split.
  - apply (proj1 (proj2 (proj2 (proj2 (vscode_get_version_priority w))))
             0%nat cmd "1.90.2"); [reflexivity|reflexivity|].
    intros i other Hi. lia.
  - apply (proj1 (proj2 (proj2 (proj2 (vscode_get_version_priority one_install))))
             2%nat program_files_x86_code "1.85.0"); [reflexivity|reflexivity|].
    intros [|[|i]] other Hi Hother; [| |lia]; injection Hother as <-;
      split; intros ?; discriminate.
Defined.

(** C5, as stated, fails: on a machine where a file sits at the first
    Program Files location but cannot be run, and a working install sits at
    the second, the first candidate yielding a version string is the second
    install, yet the tool raises the exception of the first and returns no
    version. *)
Lemma vscode_get_version_broken_before_version :
  let w := with_file program_files_code one_install in
  candidates_of (w (Which "code")) (w (Expandvars localappdata_code))
  = [localappdata_code; program_files_code; program_files_x86_code]
  /\ try_candidate w localappdata_code = Nothing
  /\ try_candidate w program_files_code
     = Failure (OSError "No such file or directory")
  /\ try_candidate w program_files_x86_code = Version "1.85.0"
  /\ result_of w vscode_get_version = Raised (OSError "No such file or directory")
  /\ result_of w vscode_get_version <> Returned "1.85.0".
Proof. repeat split. vm_compute. congruence. Qed.

(** ** Start-up *)

(** Every path through [main], by the answers of the environment. *)
Ltac main_cases :=
  unfold trace_of, result_of, main, need_api_key_and_exit, crew, with_workbench,
    print, call, call_raising, mbind, prog_bind, mret, prog_ret;
  change (Getenv "OPENAI_API_KEY") with (Getenv key_name);
  cbn [bind interp finally id];
  repeat (first
            [ match goal with
              | |- context [match ?answer with inl _ => _ | inr _ => _ end] =>
                  destruct answer eqn:?
              end
            | match goal with
              | |- context [if not_set ?key then _ else _] =>
                  destruct (not_set key) eqn:?
              end ];
          cbn [bind interp finally id]);
  cbn [fst snd].

(** Membership in a spelled-out trace. *)
Ltac split_in H :=
  repeat (destruct H as [H|H]; [try discriminate H|]); try contradiction.

Ltac find_in := cbn [In]; repeat (first [ left; reflexivity | right ]).

Ltac use_answer :=
  match goal with
  | |- context [succeeded ?a] =>
      match goal with E : a = _ |- _ => rewrite E end
  end.

Ltac use_answer_in H :=
  match type of H with
  | context [succeeded ?a] =>
      match goal with E : a = _ |- _ => rewrite E in H end
  end.








(** ** The supervisor loop: sequencing and the iteration cap *)

Import Orchestrator.

Lemma calls_issued_snoc conv t :
  calls_issued (conv ++ [t]) = (calls_issued conv + if is_call t then 1 else 0)%nat.
Proof.
  unfold calls_issued. rewrite List.filter_app, length_app. cbn.
  destruct (is_call t); reflexivity.
Qed.

Lemma results_appended_snoc conv t :
  results_appended (conv ++ [t])
  = (results_appended conv + if is_result t then 1 else 0)%nat.
Proof.
  unfold results_appended. rewrite List.filter_app, length_app. cbn.
  destruct (is_result t); reflexivity.
Qed.

Lemma pending_snoc conv t :
  pending (conv ++ [t]) = match t with CallTurn c => Some c | _ => None end.
Proof.
  induction conv as [|x conv IH]; [reflexivity|].
  cbn [app pending]. destruct (conv ++ [t]) eqn:E.
  - destruct conv; discriminate.
  - exact IH.
Qed.

Lemma sequenced_snoc conv t :
  sequenced conv = true -> may_follow conv t -> sequenced (conv ++ [t]) = true.
Proof.
  remember (length conv) as n eqn:Hn. revert conv Hn.
  induction n as [n IH] using lt_wf_ind. intros conv Hn Hseq Hfollow.
  destruct conv as [|x [|y rest]].
  - destruct t; cbn in *; solve [reflexivity | contradiction].
  - destruct x; cbn in *; try discriminate; destruct t; cbn in *;
      try reflexivity; try contradiction.
    rewrite Hfollow, String.eqb_refl. reflexivity.
  - assert (Hrest : forall rest', (length rest' < n)%nat -> sequenced rest' = true ->
                                  may_follow rest' t ->
                                  sequenced (rest' ++ [t]) = true)
      by (intros rest' Hlt; apply (IH (length rest') Hlt rest' eq_refl)).
    subst n. destruct x.
    + change (sequenced (y :: rest) = true) in Hseq.
      change (sequenced ((y :: rest) ++ [t]) = true).
      apply Hrest; [simpl; lia|assumption|exact Hfollow].
    + change (sequenced (y :: rest) = true) in Hseq.
      change (sequenced ((y :: rest) ++ [t]) = true).
      apply Hrest; [simpl; lia|assumption|exact Hfollow].
    + destruct y; try discriminate.
      change ((result_tool r =? call_tool c)%string && sequenced rest = true) in Hseq.
      apply andb_prop in Hseq as [Hname Hseq].
      change ((result_tool r =? call_tool c)%string && sequenced (rest ++ [t]) = true).
      rewrite Hname. cbn [andb].
      apply Hrest; [simpl; lia|assumption|].
      unfold may_follow in *. destruct rest; exact Hfollow.
    + discriminate.
    + change (sequenced (y :: rest) = true) in Hseq.
      change (sequenced ((y :: rest) ++ [t]) = true).
      apply Hrest; [simpl; lia|assumption|exact Hfollow].
Qed.

Section LoopFacts.

Local Open Scope nat_scope.

Variable engine : ConversationState -> list string -> decision.
Variable execute : Tool -> string -> string * bool.
Variable registry : gmap string Tool.
Variable cap : nat.

Local Abbreviation step := (Orchestrator.step engine execute registry cap).
Local Abbreviation steps := (Orchestrator.steps engine execute registry cap).
Local Abbreviation run := (Orchestrator.run engine execute registry cap).

Lemma dispatch_same_tool c :
  result_tool (dispatch execute registry c) = call_tool c.
Proof.
  unfold dispatch. destruct (resolve registry (call_tool c)); [|reflexivity].
  destruct (execute _ _). reflexivity.
Qed.

Lemma initial_consistent instructions mission :
  consistent cap (initial instructions mission).
Proof. repeat split. cbn. lia. Qed.

Lemma step_consistent m : consistent cap m -> consistent cap (step m).
Proof.
  destruct m as [st conv it]. unfold consistent, within.
  cbn [state conversation iterations].
  intros (Hseq & Hpend & Hres & Hcalls & Hcap).
  unfold Orchestrator.step. cbn [state conversation iterations].
  destruct st; cbn [dispatching busy] in *.
  - destruct (cap <=? it) eqn:Hle; cbn [state conversation iterations dispatching busy].
    + apply Nat.leb_le in Hle. repeat split; auto; lia.
    + apply Nat.leb_gt in Hle.
      destruct (engine conv _);
        cbn [state conversation iterations dispatching busy];
        rewrite ?pending_snoc, ?results_appended_snoc, ?calls_issued_snoc;
        cbn [is_call is_result];
        repeat split; auto; try lia;
        apply sequenced_snoc; auto; unfold may_follow; rewrite Hpend; exact I.
  - cbn [state conversation iterations dispatching busy].
    rewrite pending_snoc, results_appended_snoc, calls_issued_snoc.
    cbn [is_call is_result].
    repeat split; try lia.
    apply sequenced_snoc; auto. unfold may_follow. rewrite Hpend.
    apply dispatch_same_tool.
  - repeat split; auto.
  - repeat split; auto.
  - repeat split; auto.
Qed.

Lemma steps_consistent n m : consistent cap m -> consistent cap (steps n m).
Proof.
  revert m. induction n as [|n IH]; intros m Hm; [exact Hm|].
  apply IH, step_consistent, Hm.
Qed.

Lemma step_remaining m :
  consistent cap m -> terminal m = false ->
  remaining cap (step m) < remaining cap m.
Proof.
  destruct m as [st conv it].
  unfold consistent, within, remaining, terminal, Orchestrator.step.
  cbn [state conversation iterations].
  intros (_ & _ & _ & _ & Hcap) Hterm. destruct st; try discriminate.
  - destruct (cap <=? it) eqn:Hle; cbn [state iterations]; [lia|].
    apply Nat.leb_gt in Hle. destruct (engine conv _); cbn [state iterations]; lia.
  - cbn [state iterations]. lia.
Qed.

Lemma terminal_remaining m : terminal m = true -> remaining cap m = 0.
Proof. unfold terminal, remaining. destruct (state m); congruence. Qed.

Lemma run_reaches fuel m :
  consistent cap m -> remaining cap m <= fuel ->
  exists n, run fuel m = Some (steps n m) /\ terminal (steps n m) = true.
Proof.
  revert m. induction fuel as [|fuel IH]; intros m Hm Hfuel.
  - destruct (terminal m) eqn:Hterm.
    + exists 0. cbn. rewrite Hterm. auto.
    + pose proof (step_remaining m Hm Hterm). lia.
  - destruct (terminal m) eqn:Hterm.
    + exists 0. cbn. rewrite Hterm. auto.
    + destruct (IH (step m)) as (n & Hrun & Hend).
      * apply step_consistent, Hm.
      * pose proof (step_remaining m Hm Hterm). lia.
      * exists (S n). cbn [Orchestrator.run Orchestrator.steps]. rewrite Hterm. auto.
Qed.

Lemma consistent_in_flight m :
  consistent cap m -> in_flight (conversation m) = busy (state m).
Proof.
  intros (_ & _ & Hres & Hcalls & _). unfold in_flight. rewrite Hres, Hcalls. lia.
Qed.

(** C6: the supervisor is configured with a cap of 20; for every run of the
    loop, under every cap, the run ends, the iteration counter never exceeds
    the cap at any point of the run, the tool calls issued are as many as
    the counter says, and the run ends in ABORTED exactly when the counter
    has reached the cap. *)
Theorem supervisor_loop_capped (instructions mission : string) :
  (forall framework_default, cap_of framework_default supervisor = 20)
  /\ (exists m,
        supervisor_run engine execute registry cap instructions mission = Some m
        /\ terminal m = true
        /\ iterations m <= cap
        /\ calls_issued (conversation m) = iterations m
        /\ (iterations m = cap <-> state m = ABORTED))
  /\ (forall n, iterations (steps n (initial instructions mission)) <= cap).
Proof.
  split; [reflexivity|]. split.
  - destruct (run_reaches (2 * cap + 1) (initial instructions mission))
      as (n & Hrun & Hend).
    + apply initial_consistent.
    + cbn. lia.
    + exists (steps n (initial instructions mission)).
      split; [exact Hrun|]. split; [exact Hend|].
      pose proof (steps_consistent n _ (initial_consistent instructions mission))
        as (_ & _ & _ & Hcalls & Hcap).
      unfold within in Hcap. unfold terminal in Hend.
      destruct (state (steps n (initial instructions mission)));
        try discriminate; cbn [busy] in Hcalls;
        repeat split; try lia; try congruence.
  - intros n.
    pose proof (steps_consistent n _ (initial_consistent instructions mission))
      as (_ & _ & _ & _ & Hcap).
    unfold within in Hcap.
    destruct (state (steps n (initial instructions mission))); lia.
Qed.

(** C7: parallel tool calls are switched off on the model the supervisor is
    bound to, and at every point of every run at most one tool call is in
    flight: a decision adds at most one call to the history, one call is in
    flight exactly while the loop is dispatching it, its result is what the
    next transition appends, and in the history every call is followed at
    once by the result of the same tool. *)
Theorem one_call_in_flight (instructions mission : string) (n : nat) :
  let m := steps n (initial instructions mission) in
  parallel_tool_calls (agent_model supervisor) = false
  /\ in_flight (conversation m) <= 1
  /\ (in_flight (conversation m) = 1 <-> exists c, state m = DISPATCHING_TOOL c)
  /\ sequenced (conversation m) = true
  /\ calls_issued (conversation (step m)) <= calls_issued (conversation m) + 1
  /\ (forall c, state m = DISPATCHING_TOOL c ->
                conversation (step m)
                = conversation m ++ [ResultTurn (dispatch execute registry c)]
                /\ in_flight (conversation (step m)) = 0).
Proof.
  intros m.
  pose proof (steps_consistent n _ (initial_consistent instructions mission)) as Hm.
  pose proof (step_consistent _ Hm) as Hm'. fold m in Hm, Hm'.
  pose proof (consistent_in_flight _ Hm) as Hfly.
  pose proof (consistent_in_flight _ Hm') as Hfly'.
  destruct Hm as (Hseq & _ & _ & Hcalls & _).
  destruct Hm' as (_ & _ & _ & Hcalls' & _).
  split; [reflexivity|]. split; [|split; [|split; [|split]]].
  - rewrite Hfly. destruct (state m); cbn [busy]; lia.
  - rewrite Hfly. destruct (state m); cbn [busy]; split;
      try discriminate; try (intros [c Hc]; discriminate); eauto.
  - exact Hseq.
  - rewrite Hcalls, Hcalls'. unfold Orchestrator.step.
    destruct (state m) eqn:Hstate; cbn [busy state iterations];
      rewrite ?Hstate; cbn [busy]; try lia.
    destruct (cap <=? iterations m); cbn [busy state iterations]; [lia|].
    destruct (engine _ _); cbn [busy state iterations]; lia.
  - intros c Hc. revert Hfly'. unfold Orchestrator.step. rewrite Hc.
    cbn [conversation state busy]. auto.
Qed.

End LoopFacts.

(** ** Further properties of the tools *)

Lemma lstrip_empty_blank s : lstrip s = "" -> blank s = true.
Proof.
  induction s as [|c s IH]; [reflexivity|]. cbn [lstrip blank].
  destruct (isspace c); [exact IH | discriminate].
Qed.

Lemma strip_empty_blank s : strip s = "" -> blank s = true.
Proof.
  unfold strip. intros H. apply lstrip_empty_blank.
  destruct (lstrip_head s) as [E|(c & t & E & Hc)]; [exact E|].
  rewrite E, rstrip_keeps_head in H by assumption. discriminate.
Qed.

(** X1: [human_confirm] asks exactly one question, the prompt built from
    the step, and its answer is "yes" or "no" and nothing else; it raises
    only when reading the console raises (end of input is not taken for a
    "no"). *)
Theorem human_confirm_yes_or_no (w : world) (step : string) :
  trace_of w (human_confirm step) = [Input (confirm_prompt step)]
  /\ (forall text, result_of w (human_confirm step) = Returned text ->
                   (text = "yes" \/ text = "no")
                   /\ exists line, w (Input (confirm_prompt step)) = inr line)
  /\ (forall e, result_of w (human_confirm step) = Raised e <->
                w (Input (confirm_prompt step)) = inl e).
Proof.
  unfold trace_of, result_of. rewrite interp_human_confirm. cbn [fst snd].
  split; [reflexivity|].
  destruct (w (Input (confirm_prompt step))) as [e|line]; split.
  - intros text H. discriminate.
  - intros e'. split; congruence.
  - intros text H. injection H as <-. split; [|eauto].
    match goal with |- context [if ?b then _ else _] => destruct b end; auto.
  - intros e'. split; discriminate.
Qed.

Lemma human_confirm_yes_or_no_witness :
  result_of bare (human_confirm "install Git") = Raised EOFError.
Proof.
  apply (proj2 (proj2 (human_confirm_yes_or_no bare "install Git")) EOFError).
  reflexivity.
Defined.

(** X2: the answer of [human_confirm] depends on the typed line only up to
    letter case, and not at all on the step that is described: two lines
    that are equal once lowered get the same answer, whatever the steps. *)
Theorem human_confirm_case_blind (w1 w2 : world) (step1 step2 line1 line2 : string) :
  w1 (Input (confirm_prompt step1)) = inr line1 ->
  w2 (Input (confirm_prompt step2)) = inr line2 ->
  lower line1 = lower line2 ->
  result_of w1 (human_confirm step1) = result_of w2 (human_confirm step2).
Proof.
  intros H1 H2 Hlow. unfold result_of. rewrite !interp_human_confirm. cbn [snd].
  rewrite H1, H2, !lower_strip, Hlow. reflexivity.
Qed.

Lemma human_confirm_case_blind_witness :
  result_of (typing " yEs" bare) (human_confirm "install Git")
  = result_of (typing " YES" bare) (human_confirm "install Visual Studio Code").
Proof.
  apply (human_confirm_case_blind (typing " yEs" bare) (typing " YES" bare)
           "install Git" "install Visual Studio Code" " yEs" " YES");
    reflexivity.
Defined.

(** X3: the text [winget_install] returns is never empty and carries no
    white space at either end, with or without the silent flags. *)
Theorem winget_install_text_shape (w : world) (package_id : string) (silent : bool)
    (text : string) :
  result_of w (winget_install package_id silent) = Returned text ->
  text <> "" /\ strip text = text.
Proof.
  unfold result_of. rewrite interp_winget_install. cbn [snd].
  destruct (w (SubprocessRun (winget_args package_id silent))) as [e|p];
    [discriminate|].
  intros H. injection H as <-. unfold por.
  destruct (truthy (strip (stdout p +:+ stderr p))) eqn:E.
  - split; [apply truthy_true, E | apply strip_idem].
  - split; [discriminate | reflexivity].
Qed.

Lemma winget_install_text_shape_witness :
  let w := with_command (winget_args "Git.Git" false)
                        (mkCompleted 0 (" Found Git " +:+ nl) "") bare in
  result_of w (winget_install "Git.Git" false) = Returned "Found Git"
  /\ "Found Git" <> "" /\ strip "Found Git" = "Found Git".
Proof.
  intros w. split; [reflexivity|].
  apply (winget_install_text_shape w "Git.Git" false "Found Git"). reflexivity.
Defined.

(** X4: [winget_install] answers "done" in two cases only: the command
    completed and printed nothing but white space, or what it printed is,
    once stripped, the word "done" itself; the caller cannot tell the two
    apart. *)
Theorem winget_install_done (w : world) (package_id : string) (silent : bool) :
  result_of w (winget_install package_id silent) = Returned "done" <->
  exists p, w (SubprocessRun (winget_args package_id silent)) = inr p
            /\ (blank (stdout p +:+ stderr p) = true
                \/ strip (stdout p +:+ stderr p) = "done").
Proof.
  unfold result_of. rewrite interp_winget_install. cbn [snd].
  destruct (w (SubprocessRun (winget_args package_id silent))) as [e|p]; split.
  - discriminate.
  - intros (p & H & _). discriminate.
  - intros H. injection H as H. exists p. split; [reflexivity|].
    unfold por in H. destruct (truthy (strip (stdout p +:+ stderr p))) eqn:E.
    + right. exact H.
    + left. apply strip_empty_blank.
      destruct (strip (stdout p +:+ stderr p)); [reflexivity | discriminate].
  - intros (q & Hq & [Hblank | Hdone]); injection Hq as <-.
    + rewrite strip_blank by assumption. reflexivity.
    + rewrite Hdone. reflexivity.
Qed.

Lemma winget_install_done_witness :
  result_of (with_command (winget_args "Git.Git" true)
                          (mkCompleted 1 "" (nl +:+ "done" +:+ nl)) bare)
            (winget_install "Git.Git" true) = Returned "done".
Proof.
  apply (proj2 (winget_install_done _ "Git.Git" true)).
  exists (mkCompleted 1 "" (nl +:+ "done" +:+ nl)).
  split; [reflexivity|]. right. reflexivity.
Defined.

(** X5: the result of [winget_install] carries no trace of the exit status:
    two completed runs that print the same standard output and standard
    error give the same result, whatever their exit codes, and for any
    package and either value of the silent flag. *)
Theorem winget_install_ignores_exit_status (w1 w2 : world)
    (package1 package2 : string) (silent1 silent2 : bool) (p1 p2 : CompletedProcess) :
  w1 (SubprocessRun (winget_args package1 silent1)) = inr p1 ->
  w2 (SubprocessRun (winget_args package2 silent2)) = inr p2 ->
  stdout p1 = stdout p2 -> stderr p1 = stderr p2 ->
  result_of w1 (winget_install package1 silent1)
  = result_of w2 (winget_install package2 silent2).
Proof.
  intros H1 H2 Hout Herr. unfold result_of. rewrite !interp_winget_install.
  cbn [snd]. rewrite H1, H2, Hout, Herr. reflexivity.
Qed.

Lemma winget_install_ignores_exit_status_witness :
  let text := "No package found matching input criteria." in
  result_of (with_command (winget_args "Git.Gti" true) (mkCompleted 0 "" text) bare)
            (winget_install "Git.Gti" true)
  = result_of (with_command (winget_args "Git.Gti" true)
                            (mkCompleted 2316632084 "" text) bare)
              (winget_install "Git.Gti" true).
Proof.
  intros text.
  apply (winget_install_ignores_exit_status _ _ "Git.Gti" "Git.Gti" true true
           (mkCompleted 0 "" text) (mkCompleted 2316632084 "" text));
    reflexivity.
Defined.

Lemma first_finding_returned fs v :
  first_finding fs = Returned v -> v = "unknown" \/ In (Version v) fs.
Proof.
  induction fs as [|f fs IH]; cbn [first_finding].
  - intros H. injection H as <-. auto.
  - destruct f; intros H.
    + destruct (IH H); [auto | right; right; assumption].
    + injection H as ->. right. left. reflexivity.
    + discriminate.
Qed.

Lemma first_finding_raised fs e :
  first_finding fs = Raised e -> In (Failure e) fs.
Proof.
  induction fs as [|f fs IH]; cbn [first_finding]; [discriminate|].
  destruct f; intros H.
  - right. auto.
  - discriminate.
  - injection H as ->. left. reflexivity.
Qed.

Lemma try_candidate_inv (w : world) exe :
  match try_candidate w exe with
  | Nothing => True
  | Version v =>
      exe <> "" /\ w (PathExists exe) = true
      /\ exists p, w (SubprocessRun [exe; "--version"]) = inr p
                   /\ strip (por (stdout p) (stderr p)) <> ""
                   /\ v = first_line (strip (por (stdout p) (stderr p)))
  | Failure e =>
      exe <> "" /\ w (PathExists exe) = true
      /\ w (SubprocessRun [exe; "--version"]) = inl e
  end.
Proof.
  unfold try_candidate, version_argv.
  destruct (truthy exe) eqn:Hexe; cbn [andb]; [|exact I].
  apply truthy_true in Hexe.
  destruct (w (PathExists exe)) eqn:Hthere; [|exact I].
  destruct (w (SubprocessRun [exe; "--version"])) as [e|p] eqn:Hrun; [auto|].
  destruct (truthy (strip (por (stdout p) (stderr p)))) eqn:Hout; [|exact I].
  apply truthy_true in Hout. eauto 8.
Qed.

Lemma first_line_no_break s :
  Forall (fun c => islinebreak c = false) (list_ascii_of_string (first_line s)).
Proof.
  induction s as [|c s IH]; cbn [first_line]; [constructor|].
  destruct (islinebreak c) eqn:Hc; [constructor|].
  cbn [list_ascii_of_string]. constructor; assumption.
Qed.

Lemma first_line_head c s :
  isspace c = false -> first_line (String c s) = String c (first_line s).
Proof.
  intros Hc. cbn [first_line]. destruct (islinebreak c) eqn:Hb; [|reflexivity].
  apply islinebreak_isspace in Hb. congruence.
Qed.

(** X6: [vscode_get_version] raises only what running a candidate raises:
    an exception comes from the version command of a candidate that is in
    the list and exists; taking the first line of the output never fails,
    so where every command can be run the tool returns. *)
Theorem vscode_get_version_raises_only_from_run (w : world) :
  (forall e, result_of w vscode_get_version = Raised e ->
     exists exe,
       In exe (candidates_of (w (Which "code")) (w (Expandvars localappdata_code)))
       /\ exe <> "" /\ w (PathExists exe) = true
       /\ w (SubprocessRun [exe; "--version"]) = inl e)
  /\ ((forall exe, succeeded (w (SubprocessRun [exe; "--version"])) = true) ->
      exists text, result_of w vscode_get_version = Returned text).
Proof.
  rewrite result_vscode_get_version, result_probe.
  assert (Hraise : forall e,
    first_finding (map (try_candidate w)
      (candidates_of (w (Which "code")) (w (Expandvars localappdata_code))))
    = Raised e ->
    exists exe,
      In exe (candidates_of (w (Which "code")) (w (Expandvars localappdata_code)))
      /\ exe <> "" /\ w (PathExists exe) = true
      /\ w (SubprocessRun [exe; "--version"]) = inl e).
  { intros e H. apply first_finding_raised, in_map_iff in H as (exe & Hexe & Hin).
    exists exe. split; [exact Hin|].
    pose proof (try_candidate_inv w exe) as Hinv. rewrite Hexe in Hinv. exact Hinv. }
  split; [exact Hraise|].
  intros Hruns.
  destruct (first_finding _) as [text|e] eqn:E; [eauto|].
  destruct (Hraise e eq_refl) as (exe & _ & _ & _ & Hrun).
  specialize (Hruns exe). rewrite Hrun in Hruns. discriminate.
Qed.

Lemma vscode_get_version_raises_only_from_run_witness :
  let w := with_file program_files_code bare in
  result_of w vscode_get_version = Raised (OSError "No such file or directory")
  /\ exists exe,
       In exe (candidates_of (w (Which "code")) (w (Expandvars localappdata_code)))
       /\ exe <> "" /\ w (PathExists exe) = true
       /\ w (SubprocessRun [exe; "--version"])
          = inl (OSError "No such file or directory").
Proof.
  intros w. split; [reflexivity|].
  apply (proj1 (vscode_get_version_raises_only_from_run w)). reflexivity.
Defined.

(** X7: whatever [vscode_get_version] returns is one line that is not empty
    and does not begin with white space: "unknown", or the first line of
    the stripped output of a candidate that exists. *)
Theorem vscode_get_version_line_shape (w : world) (text : string) :
  result_of w vscode_get_version = Returned text ->
  (exists c rest, text = String c rest /\ isspace c = false)
  /\ Forall (fun c => islinebreak c = false) (list_ascii_of_string text)
  /\ (text = "unknown"
      \/ exists exe p,
           In exe (candidates_of (w (Which "code"))
                                 (w (Expandvars localappdata_code)))
           /\ w (PathExists exe) = true
           /\ w (SubprocessRun [exe; "--version"]) = inr p
           /\ text = first_line (strip (por (stdout p) (stderr p)))).
Proof.
  rewrite result_vscode_get_version, result_probe.
  intros [-> | H]%first_finding_returned.
  - split; [do 2 eexists; split; reflexivity|].
    split; [repeat constructor | left; reflexivity].
  - apply in_map_iff in H as (exe & Hexe & Hin).
    pose proof (try_candidate_inv w exe) as Hinv. rewrite Hexe in Hinv.
    destruct Hinv as (_ & Hthere & p & Hrun & Hout & ->).
    destruct (strip_head (por (stdout p) (stderr p))) as [E|(c & t & E & Hc)];
      [contradiction|].
    split; [|split].
    + rewrite E, first_line_head by assumption. eauto.
    + apply first_line_no_break.
    + right. exists exe, p. auto.
Qed.

Lemma vscode_get_version_line_shape_witness :
  result_of one_install vscode_get_version = Returned "1.85.0"
  /\ exists c rest, "1.85.0" = String c rest /\ isspace c = false.
Proof.
  split; [reflexivity|].
  apply (proj1 (vscode_get_version_line_shape one_install "1.85.0" eq_refl)).
Defined.

Lemma runs_guarded_check (w : world) exe t :
  runs_guarded w t -> runs_guarded w (PathExists exe :: t).
Proof.
  destruct t as [|e t]; [intros _; exact I|].
  destruct e; intros H; try contradiction. exact H.
Qed.

Lemma runs_guarded_run (w : world) exe t :
  w (PathExists exe) = true -> runs_guarded w t ->
  runs_guarded w (PathExists exe :: SubprocessRun [exe; "--version"] :: t).
Proof. intros Hthere H. cbn [runs_guarded]. auto. Qed.

Lemma probe_trace_guarded (w : world) (candidates : list string) :
  runs_guarded w (trace_of w (probe candidates))
  /\ (length (trace_of w (probe candidates)) <= 2 * length candidates)%nat.
Proof.
  unfold trace_of. induction candidates as [|exe rest [IHg IHl]]; [cbn; auto|].
  rewrite interp_probe_cons. unfold try_candidate, requests_for, version_argv.
  cbn [length]. destruct (truthy exe); cbn [andb].
  - destruct (w (PathExists exe)) eqn:Hthere.
    + destruct (w (SubprocessRun [exe; "--version"])) as [e|r].
      * split; [apply runs_guarded_run; [assumption | exact I] | cbn; lia].
      * destruct (truthy _).
        -- split; [apply runs_guarded_run; [assumption | exact I] | cbn; lia].
        -- destruct (interp w (probe rest)) as [t o]. cbn [fst app] in *.
           split; [apply runs_guarded_run; assumption | cbn [length]; lia].
    + destruct (interp w (probe rest)) as [t o]. cbn [fst app] in *.
      split; [apply runs_guarded_check; assumption | cbn [length]; lia].
  - destruct (interp w (probe rest)) as [t o]. cbn [fst app] in *.
    split; [assumption | lia].
Qed.

Lemma candidates_of_length code_cmd expanded :
  (length (candidates_of code_cmd expanded) <= 4)%nat.
Proof.
  unfold candidates_of. destruct code_cmd as [c|]; [destruct (truthy c)|]; cbn; lia.
Qed.

(** X8: [vscode_get_version] runs nothing it has not just checked: after
    the lookup of "code" and the expansion of the per-user path, its requests
    are existence checks of candidates, and a command is run only right after
    the check of its own executable has answered yes, and only as
    [exe --version]; at most four candidates are tried. *)
Theorem vscode_get_version_checks_before_running (w : world) :
  exists t,
    trace_of w vscode_get_version
    = Which "code" :: Expandvars localappdata_code :: t
    /\ runs_guarded w t
    /\ (length t <= 8)%nat.
Proof.
  rewrite trace_vscode_get_version. eexists. split; [reflexivity|].
  destruct (probe_trace_guarded w
              (candidates_of (w (Which "code")) (w (Expandvars localappdata_code))))
    as [Hg Hl].
  split; [exact Hg|].
  pose proof (candidates_of_length (w (Which "code"))
                                   (w (Expandvars localappdata_code))).
  lia.
Qed.

(** X9: a candidate that exists but cannot be run ends the probe: the
    exception of its version command is what [vscode_get_version] raises,
    and the candidates after it are not even checked, so a broken install at
    a location of higher priority hides a working one at a lower. *)
Theorem vscode_get_version_broken_install (w : world) (before after : list string)
    (exe : string) (e : exn) :
  candidates_of (w (Which "code")) (w (Expandvars localappdata_code))
  = before ++ exe :: after ->
  Forall (fun other => try_candidate w other = Nothing) before ->
  exe <> "" -> w (PathExists exe) = true ->
  w (SubprocessRun [exe; "--version"]) = inl e ->
  result_of w vscode_get_version = Raised e
  /\ trace_of w vscode_get_version
     = Which "code" :: Expandvars localappdata_code
       :: concat (map (requests_for w) before)
       ++ [PathExists exe; SubprocessRun [exe; "--version"]].
Proof.
  intros Hlist Hbefore Hexe%truthy_true Hthere Hrun.
  rewrite result_vscode_get_version, trace_vscode_get_version, Hlist.
  rewrite result_probe_app, trace_probe_app by assumption.
  unfold result_of, trace_of. rewrite interp_probe_cons.
  unfold try_candidate, requests_for, version_argv.
  rewrite Hexe, Hthere, Hrun. cbn [andb fst snd]. auto.
Qed.

Lemma vscode_get_version_broken_install_witness :
  let w := with_file program_files_code one_install in
  result_of w vscode_get_version = Raised (OSError "No such file or directory")
  /\ trace_of w vscode_get_version
     = [Which "code"; Expandvars localappdata_code; PathExists localappdata_code;
        PathExists program_files_code;
        SubprocessRun [program_files_code; "--version"]].
Proof.
  intros w.
  apply (vscode_get_version_broken_install w [localappdata_code]
           [program_files_x86_code] program_files_code
           (OSError "No such file or directory"));
    try reflexivity.
  - repeat constructor.
  - vm_compute. congruence.
Defined.

(** X10: [vscode_get_version] stops at the first candidate that gives a
    version line: its last request is the version command of that candidate
    and no candidate after it is checked or run. *)
Theorem vscode_get_version_stops_at_version (w : world) (before after : list string)
    (exe line : string) :
  candidates_of (w (Which "code")) (w (Expandvars localappdata_code))
  = before ++ exe :: after ->
  Forall (fun other => try_candidate w other = Nothing) before ->
  try_candidate w exe = Version line ->
  result_of w vscode_get_version = Returned line
  /\ trace_of w vscode_get_version
     = Which "code" :: Expandvars localappdata_code
       :: concat (map (requests_for w) before)
       ++ [PathExists exe; SubprocessRun [exe; "--version"]].
Proof.
  intros Hlist Hbefore Hexe.
  rewrite result_vscode_get_version, trace_vscode_get_version, Hlist.
  rewrite result_probe_app, trace_probe_app by assumption.
  unfold result_of, trace_of. rewrite interp_probe_cons, Hexe. cbn [fst snd].
  split; [reflexivity|].
  pose proof (try_candidate_inv w exe) as Hinv. rewrite Hexe in Hinv.
  destruct Hinv as (Hne%truthy_true & Hthere & _).
  unfold requests_for. rewrite Hne, Hthere. reflexivity.
Qed.

Lemma vscode_get_version_stops_at_version_witness :
  let cmd := "C:\Tools\VSCode\bin\code.cmd" in
  let w :=
    on_path "code" cmd
      (with_file cmd
         (with_command [cmd; "--version"] (mkCompleted 0 ("1.90.2" +:+ nl) "")
                       one_install)) in
  result_of w vscode_get_version = Returned "1.90.2"
  /\ trace_of w vscode_get_version
     = [Which "code"; Expandvars localappdata_code; PathExists cmd;
        SubprocessRun [cmd; "--version"]].
Proof.
  intros cmd w.
  apply (vscode_get_version_stops_at_version w []
           [localappdata_code; program_files_code; program_files_x86_code]
           cmd "1.90.2"); try reflexivity.
  constructor.
Defined.

(** ** Further properties of the start-up *)

Lemma infix_here {A} (a b : A) (post : list A) :
  exists pre post', a :: b :: post = pre ++ a :: b :: post'.
Proof. exists [], post. reflexivity. Qed.

Lemma infix_later {A} (a b x : A) (l : list A) :
  (exists pre post, l = pre ++ a :: b :: post) ->
  exists pre post, x :: l = pre ++ a :: b :: post.
Proof. intros (pre & post & ->). exists (x :: pre), post. reflexivity. Qed.

(** X11: [main] leaves no workbench open.  In every environment, and
    wherever the start-up or the run fails, a workbench is exited exactly
    when it was entered with success; and when the web workbench is exited,
    the desktop workbench is exited right after it. *)
Theorem main_releases_workbenches (w : world) :
  (forall p, In (WorkbenchExit p) (trace_of w main) <->
             In (WorkbenchEnter p) (trace_of w main)
             /\ succeeded (w (WorkbenchEnter p)) = true)
  /\ (In (WorkbenchExit web_params) (trace_of w main) ->
      exists pre post,
        trace_of w main
        = pre ++ WorkbenchExit web_params :: WorkbenchExit desktop_params :: post).
Proof.
  main_cases.
  all: split;
    [ intros p; cbn [In setup_messages]; split;
      [ intros H; split_in H; injection H as <-;
        (split; [ find_in | use_answer; reflexivity ])
      | intros [H Hok]; split_in H; injection H as <-;
        use_answer_in Hok; first [ discriminate Hok | find_in ] ]
    | cbn [In setup_messages]; intros H;
      first [ solve [ repeat (first [ apply infix_here | apply infix_later ]) ]
            | exfalso; split_in H ] ].
Qed.

Lemma main_releases_workbenches_witness :
  let w := run_fails "rate limit" (setenv key_name "sk-test-0123" bare) in
  result_of w main = Raised (FrameworkError "rate limit")
  /\ In (WorkbenchExit desktop_params) (trace_of w main)
  /\ In (WorkbenchExit web_params) (trace_of w main).
Proof.
  intros w. split; [reflexivity|]. split.
  - apply (proj2 (proj1 (main_releases_workbenches w) desktop_params)).
    split; [vm_compute; tauto | reflexivity].
  - apply (proj2 (proj1 (main_releases_workbenches w) web_params)).
    split; [vm_compute; tauto | reflexivity].
Defined.

(** X12: [main] returns normally only if the key is set to a text that
    is not empty, every request to the framework on the way went through
    (model client, both workbenches, the three agents) and the supervisor's
    run succeeded; its last requests are then the exits of the web and of the
    desktop workbench and the closing "[DONE]" line.  With the key missing it
    never returns normally. *)
Theorem main_returns_only_after_success (w : world) :
  result_of w main = Returned tt ->
  not_set (w (Getenv key_name)) = false
  /\ framework_ready w = true
  /\ succeeded (w (AgentRun supervisor mission)) = true
  /\ exists before,
       trace_of w main
       = before ++ [WorkbenchExit web_params; WorkbenchExit desktop_params;
                    done_message].
Proof.
  unfold framework_ready. main_cases.
  all: cbn [succeeded andb]; intros H; try discriminate H.
  repeat (split; [reflexivity|]).
  eexists [_; _; _; _; _; _; _; _; _; _; _; _; _]. reflexivity.
Qed.

Lemma main_returns_only_after_success_witness :
  let w := setenv key_name "sk-test-0123" bare in
  result_of w main = Returned tt
  /\ framework_ready w = true
  /\ succeeded (w (AgentRun supervisor mission)) = true.
Proof.
  intros w. split; [reflexivity|].
  destruct (main_returns_only_after_success w eq_refl) as (_ & Hready & Hrun & _).
  split; [exact Hready | exact Hrun].
Defined.

(** X13: [main] starts one run only, the supervisor's on the mission of the
    script, and only after the key check has passed and the model client,
    both workbenches and the three agents have been set up with success. *)
Theorem main_runs_after_setup (w : world) (a : AssistantAgent) (task : string) :
  In (AgentRun a task) (trace_of w main) ->
  a = supervisor /\ task = mission
  /\ not_set (w (Getenv key_name)) = false
  /\ framework_ready w = true
  /\ exists before after,
       trace_of w main = before ++ AgentRun supervisor mission :: after
       /\ ~ In (AgentRun supervisor mission) before
       /\ ~ In (AgentRun supervisor mission) after.
Proof.
  unfold framework_ready. main_cases.
  all: cbn [succeeded andb In setup_messages]; intros H; split_in H.
  all: injection H as <- <-; repeat (split; [reflexivity|]).
  all: eexists [_; _; _; _; _; _; _; _; _; _; _], _;
    (split; [reflexivity|]); split; intros H; cbv in H; split_in H.
Qed.

Lemma main_runs_after_setup_witness :
  let w := run_fails "rate limit" (setenv key_name "sk-test-0123" bare) in
  In (AgentRun supervisor mission) (trace_of w main)
  /\ framework_ready w = true.
Proof.
  intros w.
  assert (H : In (AgentRun supervisor mission) (trace_of w main))
    by (vm_compute; tauto).
  split; [exact H|].
  apply (main_runs_after_setup w supervisor mission H).
Defined.

(** X14: when [main] gets as far as the supervisor's run and the run
    raises, [main] requests nothing more than the exit of the web workbench
    and then of the desktop workbench: it prints neither a result nor the
    closing line; and when both exits go through, the exception [main]
    raises is the one of the run. *)
Theorem main_run_failure_propagates (w : world) (e : exn) :
  In (AgentRun supervisor mission) (trace_of w main) ->
  w (AgentRun supervisor mission) = inl e ->
  (exists before,
     trace_of w main
     = before ++ [AgentRun supervisor mission; WorkbenchExit web_params;
                  WorkbenchExit desktop_params])
  /\ (succeeded (w (WorkbenchExit web_params)) = true ->
      succeeded (w (WorkbenchExit desktop_params)) = true ->
      result_of w main = Raised e).
Proof.
  main_cases.
  all: cbn [succeeded In setup_messages]; intros H Hrun;
    try discriminate Hrun; try (exfalso; split_in H; fail).
  all: injection Hrun as <-; split;
    [ eexists [_; _; _; _; _; _; _; _; _; _; _]; reflexivity
    | intros Hweb Hdesktop;
      first [ discriminate Hweb | discriminate Hdesktop | reflexivity ] ].
Qed.

Lemma main_run_failure_propagates_witness :
  let w := run_fails "rate limit" (setenv key_name "sk-test-0123" bare) in
  result_of w main = Raised (FrameworkError "rate limit").
Proof.
  intros w.
  apply (proj2 (main_run_failure_propagates w (FrameworkError "rate limit")
                  ltac:(vm_compute; tauto) eq_refl)); reflexivity.
Defined.

(** X15: a standard output that is not empty but holds white space only
    (a lone line feed, say) makes [vscode_get_version] pass over the
    candidate without looking at its standard error, whatever that
    holds. *)
Theorem vscode_get_version_blank_stdout (w : world) (before after : list string)
    (exe : string) (p : CompletedProcess) :
  candidates_of (w (Which "code")) (w (Expandvars localappdata_code))
  = before ++ exe :: after ->
  Forall (fun other => try_candidate w other = Nothing) before ->
  exe <> "" -> w (PathExists exe) = true ->
  w (SubprocessRun [exe; "--version"]) = inr p ->
  stdout p <> "" -> blank (stdout p) = true ->
  result_of w vscode_get_version = result_of w (probe after).
Proof.
  intros Hlist Hbefore Hexe Hthere Hrun Hout Hblank.
  rewrite result_vscode_get_version, Hlist, result_probe_app by assumption.
  pose proof (try_candidate_version w exe p Hexe Hthere Hrun) as Htry.
  unfold result_of. rewrite interp_probe_cons, Htry.
  rewrite (por_nonempty _ _ Hout), strip_blank by assumption. cbn [truthy].
  destruct (interp w (probe after)). reflexivity.
Qed.

Lemma vscode_get_version_blank_stdout_witness :
  let w :=
    with_file program_files_x86_code
      (with_command [program_files_x86_code; "--version"]
                    (mkCompleted 0 nl "1.85.0") bare) in
  result_of w vscode_get_version = Returned "unknown".
Proof.
  intros w.
  apply (vscode_get_version_blank_stdout w
           [localappdata_code; program_files_code] [] program_files_x86_code
           (mkCompleted 0 nl "1.85.0"));
    try reflexivity.
  - repeat constructor.
  - vm_compute. congruence.
  - vm_compute. congruence.
Defined.
